(** * Station resolution for the Emilia-Romagna river level server

    A shallow embedding of [src/streams.py]: text normalisation, the local
    station matcher, the retrieval fallback with its response parser, the
    resolution orchestrator, the half-hour timestamp, the fetch of the
    sensor values and the two tools, the river level and the station list.

    Python strings are sequences of Unicode code points ([str]); dynamically
    typed values ([Any], parsed JSON) are the tree [pyval]; code that can
    raise returns a [result], and code that also talks to the network runs
    in the monad [M], which threads the log of outgoing HTTP requests.  What
    the script takes from Python's libraries and from its environment (the
    Unicode database, [json], floats, the process environment, the network,
    the local clock) enters through interfaces, each with a small executable
    model at the end of the definitions; the theorems follow. *)

From Stdlib Require Import List ZArith Lia Bool.
From Stdlib Require Import Ascii String.
From Stdlib Require Import Sorted Permutation.
Import ListNotations.

Local Open Scope Z_scope.

Set Implicit Arguments.
Set Warnings "-register-all".

(* ===================================================================== *)
(** * Strings *)
(* ===================================================================== *)

(** A Python [str]: the list of its code points. *)
Definition str := list Z.

(** Decoder for the literals of this file: the UTF-8 bytes of a Rocq string
    become code points, so that [u "secchia"] reads like the Python literal. *)
Fixpoint utf8_points (bs : list Z) : str :=
  match bs with
  | [] => []
  | b :: r =>
      if b <? 128 then b :: utf8_points r
      else if b <? 224 then
        match r with
        | b1 :: r1 => ((b - 192) * 64 + (b1 - 128)) :: utf8_points r1
        | [] => []
        end
      else if b <? 240 then
        match r with
        | b1 :: b2 :: r2 =>
            ((b - 224) * 4096 + (b1 - 128) * 64 + (b2 - 128)) :: utf8_points r2
        | _ => []
        end
      else
        match r with
        | b1 :: b2 :: b3 :: r3 =>
            ((b - 240) * 262144 + (b1 - 128) * 4096 + (b2 - 128) * 64 + (b3 - 128))
              :: utf8_points r3
        | _ => []
        end
  end.

Definition u (s : string) : str :=
  utf8_points (map (fun a => Z.of_N (N_of_ascii a)) (list_ascii_of_string s)).

Definition str_eqb (a b : str) : bool :=
  if list_eq_dec Z.eq_dec a b then true else false.

(** [prefix in s]: [t] is an initial segment of [s]. *)
Fixpoint starts_with (t s : str) : bool :=
  match t, s with
  | [], _ => true
  | _ :: _, [] => false
  | a :: t', b :: s' => (a =? b) && starts_with t' s'
  end.

(** [t in s] for two strings: [t] occurs in [s] as a contiguous substring. *)
Fixpoint str_contains (t s : str) : bool :=
  starts_with t s
  || match s with
     | [] => false
     | _ :: s' => str_contains t s'
     end.

(** [sep.join(parts)]. *)
Fixpoint str_join (sep : str) (parts : list str) : str :=
  match parts with
  | [] => []
  | [p] => p
  | p :: rest => p ++ sep ++ str_join sep rest
  end.

(** [s.split(" ")]: split at every single space; consecutive separators
    produce empty fields, and the empty string gives one empty field. *)
Fixpoint split_space (s : str) : list str :=
  match s with
  | [] => [[]]
  | c :: r =>
      if c =? 32 then [] :: split_space r
      else match split_space r with
           | [] => [[c]]
           | w :: ws => (c :: w) :: ws
           end
  end.

(** Truthiness of a string: [bool(s)]. *)
Definition nonempty (A : Type) (l : list A) : bool :=
  match l with [] => false | _ :: _ => true end.

(** Whitespace as [str.strip()] and the pattern [\s] see it
    (CPython's [Py_UNICODE_ISSPACE]). *)
Definition py_isspace (c : Z) : bool :=
  ((9 <=? c) && (c <=? 13)) || ((28 <=? c) && (c <=? 32))
  || (c =? 133) || (c =? 160) || (c =? 5760)
  || ((8192 <=? c) && (c <=? 8202))
  || (c =? 8232) || (c =? 8233) || (c =? 8239) || (c =? 8287) || (c =? 12288).

Fixpoint lstrip (s : str) : str :=
  match s with
  | [] => []
  | c :: r => if py_isspace c then lstrip r else s
  end.

Fixpoint rstrip (s : str) : str :=
  match s with
  | [] => []
  | c :: r =>
      match rstrip r with
      | [] => if py_isspace c then [] else [c]
      | r' => c :: r'
      end
  end.

(** [c.lower()] for an ASCII character. *)
Definition ascii_lower (c : Z) : Z :=
  if (65 <=? c) && (c <=? 90) then c + 32 else c.

Definition is_ascii (c : Z) : Prop := 0 <= c < 128.

(** [s.strip()]. *)
Definition py_strip (s : str) : str := rstrip (lstrip s).

(** [re.sub(p+, " ", s)] for a character class [p]: every maximal run of
    characters of the class becomes one space.  [in_run] records that the
    run's space has been written already. *)
Fixpoint sub_runs (p : Z -> bool) (in_run : bool) (s : str) : str :=
  match s with
  | [] => []
  | c :: r =>
      if p c then (if in_run then sub_runs p true r else 32 :: sub_runs p true r)
      else c :: sub_runs p false r
  end.

(** Decimal digits of a natural number, as [str(n)] prints them. *)
Fixpoint digits_fuel (fuel : nat) (n : Z) (acc : str) : str :=
  match fuel with
  | O => acc
  | S f =>
      let acc' := (48 + n mod 10) :: acc in
      if n <? 10 then acc' else digits_fuel f (n / 10) acc'
  end.

(** [str(z)] for an [int]. *)
Definition str_of_int (z : Z) : str :=
  if z <? 0 then 45 :: digits_fuel (S (Z.to_nat (Z.log2 (- z)))) (- z) []
  else digits_fuel (S (Z.to_nat (Z.log2 z))) z [].

(* ===================================================================== *)
(** * Python values, exceptions and the two monads *)
(* ===================================================================== *)

(** The float operations the script calls; a float is kept abstract. *)
Class PyFloats : Type := {
  float : Type;
  float_repr : float -> str;              (* str(x)                       *)
  float_of_int : Z -> option float;       (* float(n); None: OverflowError *)
  float_of_str : str -> option float;     (* float(s); None: ValueError    *)
  float_is_integer : float -> bool;       (* x.is_integer()                *)
  float_nonzero : float -> bool;          (* bool(x)                       *)
  int_of_float : float -> Z;              (* int(x), x integral            *)
  format_2f : float -> str;               (* format(x, ".2f")              *)
}.

(** What the script reads from the Unicode character database, through
    [unicodedata], [str] methods and [re]. *)
Class UnicodeData : Type := {
  nfd : str -> str;                       (* unicodedata.normalize("NFD", s)  *)
  category_is_Mn : Z -> bool;             (* unicodedata.category(c) == "Mn"  *)
  str_lower : str -> str;                 (* s.lower()                        *)
  str_repr : str -> str;                  (* repr(s)                          *)
  re_word : Z -> bool;                    (* c matches \w                     *)
  re_ieq : Z -> Z -> bool;                (* pattern letter p matches c under
                                             re.IGNORECASE                    *)
}.

Section Values.
Context {F : PyFloats}.

(** A dynamically typed value: what [json.loads] returns and what a tool
    argument of type [Any] may hold.  A [dict] keeps its items in
    insertion order, with distinct keys. *)
Inductive pyval : Type :=
| PyNone
| PyBool (b : bool)
| PyInt (z : Z)
| PyFloat (x : float)
| PyStr (s : str)
| PyList (l : list pyval)
| PyDict (d : list (str * pyval)).

Definition dict := list (str * pyval).

(** [bool(v)]. *)
Definition truthy (v : pyval) : bool :=
  match v with
  | PyNone => false
  | PyBool b => b
  | PyInt z => negb (z =? 0)
  | PyFloat x => float_nonzero x
  | PyStr s => nonempty s
  | PyList l => nonempty l
  | PyDict d => nonempty d
  end.

(** First item stored under key [k]. *)
Fixpoint lookup (k : str) (d : dict) : option pyval :=
  match d with
  | [] => None
  | (k', v) :: r => if str_eqb k k' then Some v else lookup k r
  end.

(** [d.get(k, default)] on a [dict]. *)
Definition get_or (k : str) (default : pyval) (d : dict) : pyval :=
  match lookup k d with Some v => v | None => default end.

(** [d.get(k)]: the default is [None]. *)
Definition get (k : str) (d : dict) : pyval := get_or k PyNone d.

Context {U : UnicodeData}.

(** [repr(v)]. *)
Fixpoint py_repr (v : pyval) : str :=
  match v with
  | PyNone => u "None"
  | PyBool true => u "True"
  | PyBool false => u "False"
  | PyInt z => str_of_int z
  | PyFloat x => float_repr x
  | PyStr s => str_repr s
  | PyList l => u "[" ++ str_join (u ", ") (map py_repr l) ++ u "]"
  | PyDict d =>
      u "{"
      ++ str_join (u ", ")
           (map (fun kv => str_repr (fst kv) ++ u ": " ++ py_repr (snd kv)) d)
      ++ u "}"
  end.

(** [str(v)]: a string is itself, anything else prints as its [repr]. *)
Definition py_str (v : pyval) : str :=
  match v with
  | PyStr s => s
  | _ => py_repr v
  end.
End Values.

(** Exceptions (all of them subclasses of [Exception]). *)
Inductive exn : Type :=
| JSONDecodeError
| ValueError (msg : str)
| RuntimeError (msg : str)
| RecursionError
| AttributeError
| TypeError
| OverflowError
| UnicodeDecodeError
| URLError
| HTTPError (code : Z).

(** A computation without side effects that returns or raises. *)
Inductive result (A : Type) : Type :=
| Ok (a : A)
| Raise (e : exn).
Arguments Ok {A} a.
Arguments Raise {A} e.

Definition rbind (A B : Type) (c : result A) (k : A -> result B) : result B :=
  match c with
  | Ok a => k a
  | Raise e => Raise e
  end.

Declare Scope result_scope.
Delimit Scope result_scope with res.
Notation "x <- c ;; k" := (rbind c (fun x => k))
  (at level 61, c at next level, right associativity) : result_scope.

(** [for x in l: body], a body that may raise and that updates [acc]. *)
Fixpoint for_each (A S : Type) (body : S -> A -> result S) (acc : S) (l : list A)
  : result S :=
  match l with
  | [] => Ok acc
  | x :: r => (acc' <- body acc x ;; for_each body acc' r)%res
  end.

(** An outgoing HTTP request ([urllib.request.Request]) and what
    [urlopen] gives back once the body has been read and decoded. *)
Record Request : Type := {
  req_url : str;
  req_data : option str;
  req_headers : list (str * str);
  req_method : str;
}.

Record Response : Type := {
  resp_status : Z;
  resp_body : result str;   (* response.read().decode("utf-8") *)
}.

(** A computation that may also send requests: it extends the log of the
    requests sent so far; the log survives an exception. *)
Definition M (A : Type) : Type := list Request -> result A * list Request.

Definition mret (A : Type) (a : A) : M A := fun log => (Ok a, log).

Definition mraise (A : Type) (e : exn) : M A := fun log => (Raise e, log).
Arguments mraise {A} e.

Definition mbind (A B : Type) (c : M A) (k : A -> M B) : M B :=
  fun log =>
    match c log with
    | (Ok a, log') => k a log'
    | (Raise e, log') => (Raise e, log')
    end.

(** [try: c  except Exception as e: handler e]. *)
Definition try_except (A : Type) (c : M A) (handler : exn -> M A) : M A :=
  fun log =>
    match c log with
    | (Ok a, log') => (Ok a, log')
    | (Raise e, log') => handler e log'
    end.

Definition lift (A : Type) (r : result A) : M A := fun log => (r, log).

Declare Scope io_scope.
Delimit Scope io_scope with io.
Notation "x <- c ;; k" := (mbind c (fun x => k))
  (at level 61, c at next level, right associativity) : io_scope.
Notation "' ( x , y ) <- c ;; k" := (mbind c (fun p => let '(x, y) := p in k))
  (at level 61, x name, y name, c at next level, right associativity) : io_scope.

(* ===================================================================== *)
(** * Text normalisation *)
(* ===================================================================== *)

Section Text.
Context {F : PyFloats} {U : UnicodeData}.

(** The character class [[a-z0-9]]. *)
Definition is_az09 (c : Z) : bool :=
  ((97 <=? c) && (c <=? 122)) || ((48 <=? c) && (c <=? 57)).

Definition not_az09 (c : Z) : bool := negb (is_az09 c).

(** [normalize_text]: canonical decomposition, combining marks dropped,
    lower case, every run outside [[a-z0-9]] turned into one space, trimmed. *)
Definition normalize_text (value : pyval) : str :=
  match value with
  | PyNone => []
  | _ =>
      let text := nfd (py_str value) in
      let text := filter (fun ch => negb (category_is_Mn ch)) text in
      let text := str_lower text in
      let text := sub_runs not_az09 false text in
      py_strip text
  end.

(** The alternatives of the pattern [\b(fiume|torrente|rio|canale|fosso)\b],
    in the order the pattern tries them. *)
Definition generic_words : list str :=
  [u "fiume"; u "torrente"; u "rio"; u "canale"; u "fosso"].

(** [w] read at the head of [s], letter by letter under [re.IGNORECASE]:
    the text it covered (reversed) and the text left. *)
Fixpoint match_literal (w s covered : str) : option (str * str) :=
  match w, s with
  | [], _ => Some (covered, s)
  | _ :: _, [] => None
  | p :: w', c :: s' =>
      if re_ieq p c then match_literal w' s' (c :: covered) else None
  end.

Definition is_word (o : option Z) : bool :=
  match o with
  | Some c => re_word c
  | None => false
  end.

(** [\b] between two neighbouring characters ([None] at either end of the
    text). *)
Definition word_boundary (prev next : option Z) : bool :=
  xorb (is_word prev) (is_word next).

(** The first alternative that matches at the head of [s] and is followed
    by a word boundary: the number of characters it covers. *)
Fixpoint match_generic (alts : list str) (s : str) : option nat :=
  match alts with
  | [] => None
  | w :: alts' =>
      match match_literal w s [] with
      | Some (covered, rest) =>
          if word_boundary (hd_error covered) (hd_error rest)
          then Some (List.length w)
          else match_generic alts' s
      | None => match_generic alts' s
      end
  end.

(** [re.sub(pattern, " ", s)] for the generic-word pattern: the text is
    scanned from the left, [prev] is the character before the cursor and
    [skip] counts the characters of a match still to be passed over. *)
Fixpoint sub_generic (prev : option Z) (skip : nat) (s : str) : str :=
  match s with
  | [] => []
  | c :: r =>
      match skip with
      | S k => sub_generic (Some c) k r
      | O =>
          if word_boundary prev (Some c) then
            match match_generic generic_words s with
            | Some n => 32 :: sub_generic (Some c) (Nat.pred n) r
            | None => c :: sub_generic (Some c) O r
            end
          else c :: sub_generic (Some c) O r
      end
  end.

(** [strip_generic_words]: generic nouns replaced by a space, whitespace runs
    collapsed, trimmed. *)
Definition strip_generic_words (value : pyval) : str :=
  match value with
  | PyNone => []
  | _ =>
      let text := sub_generic None O (py_str value) in
      py_strip (sub_runs py_isspace false text)
  end.

(* ===================================================================== *)
(** * The local matcher *)
(* ===================================================================== *)

(** [[token for token in cleaned.split(" ") if token]]. *)
Definition tokenize (cleaned : str) : list str :=
  filter (@nonempty Z) (split_space cleaned).

(** [normalize_text(entry.get("nomestaz", ""))]. *)
Definition entry_name (entry : dict) : str :=
  normalize_text (get_or (u "nomestaz") (PyStr []) entry).

(** [all(token in name for token in tokens)]. *)
Definition all_tokens_in (tokens : list str) (name : str) : bool :=
  forallb (fun token => str_contains token name) tokens.

(** [sum(1 for token in tokens if token in name)]. *)
Fixpoint token_score (tokens : list str) (name : str) : Z :=
  match tokens with
  | [] => 0
  | token :: rest =>
      (if str_contains token name then 1 else 0) + token_score rest name
  end.

(** The loop that fills [scored]: one pair per entry of positive score. *)
Fixpoint score_entries (tokens : list str) (entries : list dict)
  : list (Z * dict) :=
  match entries with
  | [] => []
  | entry :: rest =>
      let score := token_score tokens (entry_name entry) in
      if 0 <? score then (score, entry) :: score_entries tokens rest
      else score_entries tokens rest
  end.

(** [list.sort(key=lambda item: item[0], reverse=True)].  Python's sort is
    stable, also under [reverse=True]: a pair goes in front of the first one
    whose key is not larger, so it stays ahead of the later pairs with its
    own key. *)
Fixpoint insert_desc (A : Type) (x : Z * A) (l : list (Z * A)) : list (Z * A) :=
  match l with
  | [] => [x]
  | y :: r => if fst x <? fst y then y :: insert_desc x r else x :: l
  end.

Fixpoint sort_desc (A : Type) (l : list (Z * A)) : list (Z * A) :=
  match l with
  | [] => []
  | x :: r => insert_desc x (sort_desc r)
  end.

(** [select_stations_by_query]: the pair [(matches, suggestions)]. *)
Definition select_stations_by_query (entries : list dict) (query : str)
  : list dict * list dict :=
  let cleaned := normalize_text (PyStr (strip_generic_words (PyStr query))) in
  if negb (nonempty cleaned) then ([], [])
  else
    let tokens := tokenize cleaned in
    let matches :=
      filter (fun entry => all_tokens_in tokens (entry_name entry)) entries in
    if nonempty matches then (matches, [])
    else
      let scored := sort_desc (score_entries tokens entries) in
      ([], map snd (firstn 5 scored)).

End Text.

(* ===================================================================== *)
(** * The retrieval fallback *)
(* ===================================================================== *)

(** [json]: [loads] returns the parsed value or raises, [dumps] serialises. *)
Class JsonLib {F : PyFloats} : Type := {
  json_loads : str -> result pyval;
  json_dumps : pyval -> str;
}.

(** The process environment and the network. *)
Class World : Type := {
  getenv : str -> option str;                   (* os.getenv(name)          *)
  urlopen : Request -> Z -> result Response;    (* urlopen(request, timeout) *)
}.

Section Retrieval.
Context {F : PyFloats} {U : UnicodeData} {J : JsonLib} {W : World}.

Definition REQUEST_TIMEOUT_SEC : Z := 10.

(** [os.getenv(name, default)]. *)
Definition getenv_or (name default : str) : str :=
  match getenv name with
  | Some v => v
  | None => default
  end.

Definition OPENAI_BASE_URL : str :=
  getenv_or (u "OPENAI_BASE_URL") (u "https://api.openai.com/v1").

Definition OPENAI_DEFAULT_MODEL : str :=
  getenv_or (u "OPENAI_MODEL") (u "gpt-4.1-mini").

(** Truthiness of [os.getenv(name)]: the variable is set and not empty. *)
Definition env_set (name : str) : bool :=
  match getenv name with
  | Some v => nonempty v
  | None => false
  end.

(** [_is_retrieval_enabled]. *)
Definition _is_retrieval_enabled : bool :=
  env_set (u "OPENAI_API_KEY") && env_set (u "OPENAI_VECTOR_STORE_ID").

(** [urlopen(request, timeout=...)] with the response read: the request is
    logged whether or not the call succeeds. *)
Definition send (request : Request) (timeout : Z) : M Response :=
  fun log => (urlopen request timeout, log ++ [request]).

(** [os.getenv(name)] as a value. *)
Definition getenv_value (name : str) : pyval :=
  match getenv name with
  | Some v => PyStr v
  | None => PyNone
  end.

(** [_openai_create_response]. *)
Definition _openai_create_response (payload : pyval) : M pyval :=
  (if negb (env_set (u "OPENAI_API_KEY")) then
     mraise (RuntimeError (u "Missing OPENAI_API_KEY environment variable"))
   else
     let api_key := getenv_or (u "OPENAI_API_KEY") [] in
     let headers :=
       [(u "Authorization", u "Bearer " ++ api_key);
        (u "Content-Type", u "application/json")] in
     let headers :=
       if env_set (u "OPENAI_BETA")
       then headers ++ [(u "OpenAI-Beta", getenv_or (u "OPENAI_BETA") [])]
       else headers in
     let request :=
       {| req_url := OPENAI_BASE_URL ++ u "/responses";
          req_data := Some (json_dumps payload);
          req_headers := headers;
          req_method := u "POST" |} in
     response <- send request REQUEST_TIMEOUT_SEC ;;
     let status := resp_status response in
     body <- lift (resp_body response) ;;
     if negb (status =? 200) then
       mraise (RuntimeError
                 (u "OpenAI request failed (" ++ str_of_int status ++ u "): "
                  ++ (if nonempty body then body else u "no body")))
     else if nonempty body then lift (json_loads body)
     else mret (PyDict []))%io.

(** [v.get(k, default)] on any value: only a [dict] has the method. *)
Definition py_get (v : pyval) (k : str) (default : pyval) : result pyval :=
  match v with
  | PyDict d => Ok (get_or k default d)
  | _ => Raise AttributeError
  end.

(** [v == s] for a string literal [s]. *)
Definition is_str (v : pyval) (s : str) : bool :=
  match v with
  | PyStr s' => str_eqb s' s
  | _ => false
  end.

(** [for x in v]: the items a [for] loop draws from a value. *)
Definition py_iter (v : pyval) : result (list pyval) :=
  match v with
  | PyList l => Ok l
  | PyDict d => Ok (map (fun kv => PyStr (fst kv)) d)
  | PyStr s => Ok (map (fun c => PyStr [c]) s)
  | _ => Raise TypeError
  end.

(** [v.strip()]: only a [str] has the method. *)
Definition py_strip_method (v : pyval) : result str :=
  match v with
  | PyStr s => Ok (py_strip s)
  | _ => Raise AttributeError
  end.

(** The inner loop of [_extract_output_text] over the parts of a message. *)
Definition extract_part (chunks : list str) (part : pyval) : result (list str) :=
  (ty <- py_get part (u "type") PyNone ;;
   if is_str ty (u "output_text") then
     text <- py_get part (u "text") PyNone ;;
     if truthy text then
       chunk <- py_strip_method text ;;
       Ok (chunks ++ [chunk])
     else Ok chunks
   else Ok chunks)%res.

(** The outer loop of [_extract_output_text] over the output items. *)
Definition extract_item (chunks : list str) (item : pyval) : result (list str) :=
  (ty <- py_get item (u "type") PyNone ;;
   if negb (is_str ty (u "message")) then Ok chunks
   else
     content <- py_get item (u "content") (PyList []) ;;
     parts <- py_iter (if truthy content then content else PyList []) ;;
     for_each extract_part chunks parts)%res.

(** [_extract_output_text]. *)
Definition _extract_output_text (response : pyval) : result str :=
  (output <- py_get response (u "output") PyNone ;;
   match output with
   | PyList items =>
       chunks <- for_each extract_item [] items ;;
       Ok (py_strip (str_join [10] chunks))
   | _ => Ok []
   end)%res.

(** The longest prefix of [s] that ends in the character [c]. *)
Fixpoint upto_last (c : Z) (s : str) : option str :=
  match s with
  | [] => None
  | x :: r =>
      match upto_last c r with
      | Some p => Some (x :: p)
      | None => if x =? c then Some [x] else None
      end
  end.

(** [re.search(r"\[[\s\S]*\]", s)]: the match starts at the first [[] and,
    the star being greedy, runs to the last []] after it. *)
Fixpoint search_brackets (s : str) : option str :=
  match s with
  | [] => None
  | x :: r =>
      if x =? 91 then option_map (cons 91) (upto_last 93 r)
      else search_brackets r
  end.

(** [parsed if isinstance(parsed, list) else []]. *)
Definition list_or_empty (parsed : pyval) : list pyval :=
  match parsed with
  | PyList l => l
  | _ => []
  end.

(** [_parse_json_array]: both handlers catch [json.JSONDecodeError] only. *)
Definition _parse_json_array (text : str) : result (list pyval) :=
  if negb (nonempty text) then Ok []
  else
    match json_loads text with
    | Ok parsed => Ok (list_or_empty parsed)
    | Raise JSONDecodeError =>
        match search_brackets text with
        | None => Ok []
        | Some group0 =>
            match json_loads group0 with
            | Ok parsed => Ok (list_or_empty parsed)
            | Raise JSONDecodeError => Ok []
            | Raise e => Raise e
            end
        end
    | Raise e => Raise e
    end.

(** [l[:n]]: a negative bound counts from the end. *)
Definition slice_to (A : Type) (n : Z) (l : list A) : list A :=
  if n <? 0 then firstn (Z.to_nat (Z.of_nat (List.length l) + n)) l
  else firstn (Z.to_nat n) l.

(** The request body of [_retrieve_station_names]. *)
Definition retrieval_payload (query : str) (max_results : Z) : pyval :=
  PyDict
    [(u "model", PyStr OPENAI_DEFAULT_MODEL);
     (u "input",
      PyList
        [PyDict
           [(u "role", PyStr (u "system"));
            (u "content",
             PyStr (u "Return only a JSON array of station names. "
                    ++ u "No extra text or formatting."))];
         PyDict
           [(u "role", PyStr (u "user"));
            (u "content",
             PyStr (u "Query: " ++ query ++ u ". Return up to "
                    ++ str_of_int max_results ++ u " station names."))]]);
     (u "tools", PyList [PyDict [(u "type", PyStr (u "file_search"))]]);
     (u "tool_resources",
      PyDict
        [(u "file_search",
          PyDict
            [(u "vector_store_ids",
              PyList [getenv_value (u "OPENAI_VECTOR_STORE_ID")])])]);
     (u "temperature", PyInt 0)].

(** The comprehension that builds [names]. *)
Definition candidate_names (items : list pyval) : list str :=
  map (fun item => py_strip (py_str item))
      (filter (fun item => nonempty (py_strip (py_str item))) items).

(** [_retrieve_station_names]: no handler of its own around the request,
    the extraction or the parse. *)
Definition _retrieve_station_names (query : str) (max_results : Z)
  : M (list str) :=
  (if negb _is_retrieval_enabled then mret []
   else
     response <- _openai_create_response (retrieval_payload query max_results) ;;
     output_text <- lift (_extract_output_text response) ;;
     items <- lift (_parse_json_array output_text) ;;
     mret (slice_to max_results (candidate_names items)))%io.

(* ===================================================================== *)
(** * The resolution orchestrator *)
(* ===================================================================== *)

(** [x in normalized] for the set of normalised candidate names. *)
Definition in_names (x : str) (normalized : list str) : bool :=
  existsb (str_eqb x) normalized.

(** [select_stations_by_query_with_retrieval]. *)
Definition select_stations_by_query_with_retrieval
  (entries : list dict) (query : str) (max_results : Z)
  : M (list dict * list dict) :=
  let local := select_stations_by_query entries query in
  let local_matches := fst local in
  if nonempty local_matches || negb _is_retrieval_enabled then mret local
  else
    (attempt <- try_except
                  (names <- _retrieve_station_names query max_results ;;
                   mret (Some names))
                  (fun _ => mret None) ;;
     match attempt with
     | None => mret local
     | Some retrieved_names =>
         if negb (nonempty retrieved_names) then mret local
         else
           let normalized :=
             map (fun name => normalize_text (PyStr name)) retrieved_names in
           let matches :=
             filter (fun entry => in_names (entry_name entry) normalized)
                    entries in
           if nonempty matches then mret (matches, [])
           else mret local
     end)%io.

End Retrieval.

(* ===================================================================== *)
(** * The query timestamp *)
(* ===================================================================== *)

(** The proleptic Gregorian calendar of [datetime]. *)
Definition _is_leap (y : Z) : bool :=
  (y mod 4 =? 0) && (negb (y mod 100 =? 0) || (y mod 400 =? 0)).

Definition _days_before_year (y : Z) : Z :=
  let y1 := y - 1 in
  y1 * 365 + y1 / 4 - y1 / 100 + y1 / 400.

Definition _DAYS_IN_MONTH : list Z :=
  [0; 31; 28; 31; 30; 31; 30; 31; 31; 30; 31; 30; 31].

Definition _DAYS_BEFORE_MONTH : list Z :=
  [0; 0; 31; 59; 90; 120; 151; 181; 212; 243; 273; 304; 334].

Definition _days_in_month (y m : Z) : Z :=
  if (m =? 2) && _is_leap y then 29 else nth (Z.to_nat m) _DAYS_IN_MONTH 0.

Definition _days_before_month (y m : Z) : Z :=
  nth (Z.to_nat m) _DAYS_BEFORE_MONTH 0
  + (if (2 <? m) && _is_leap y then 1 else 0).

Definition _ymd2ord (y m d : Z) : Z :=
  _days_before_year y + _days_before_month y m + d.

Definition _ord2ymd (ord : Z) : Z * Z * Z :=
  let n := ord - 1 in
  let n400 := n / 146097 in
  let n := n mod 146097 in
  let n100 := n / 36524 in
  let n := n mod 36524 in
  let n4 := n / 1461 in
  let n := n mod 1461 in
  let n1 := n / 365 in
  let n := n mod 365 in
  let y := n400 * 400 + 1 + n100 * 100 + n4 * 4 + n1 in
  if (n1 =? 4) || (n100 =? 4) then (y - 1, 12, 31)
  else
    let leapyear := (n1 =? 3) && (negb (n4 =? 24) || (n100 =? 3)) in
    let month := (n + 50) / 32 in
    let preceding :=
      nth (Z.to_nat month) _DAYS_BEFORE_MONTH 0
      + (if (2 <? month) && leapyear then 1 else 0) in
    if n <? preceding then
      let month := month - 1 in
      let preceding :=
        preceding
        - (nth (Z.to_nat month) _DAYS_IN_MONTH 0
           + (if (month =? 2) && leapyear then 1 else 0)) in
      (y, month, n - preceding + 1)
    else (y, month, n - preceding + 1).

(** A naive [datetime]: the date as its ordinal ([toordinal()], day 1 is
    0001-01-01) and the time of day. *)
Record datetime : Type := {
  ordinal : Z;
  hour : Z;
  minute : Z;
  second : Z;
  microsecond : Z;
}.

Definition _MAXORDINAL : Z := 3652059.

(** [dt.year]. *)
Definition year (dt : datetime) : Z := fst (fst (_ord2ymd (ordinal dt))).

(** [datetime(y, m, d)]. *)
Definition datetime_of_date (y m d : Z) : datetime :=
  {| ordinal := _ymd2ord y m d; hour := 0; minute := 0; second := 0;
     microsecond := 0 |}.

(** [dt.replace(minute=m, second=0, microsecond=0)]. *)
Definition replace_minute (dt : datetime) (m : Z) : datetime :=
  {| ordinal := ordinal dt; hour := hour dt; minute := m; second := 0;
     microsecond := 0 |}.

(** Wall-clock arithmetic of [dt + timedelta(seconds=k)]: days and seconds
    are renormalised by floor division. *)
Definition shift (dt : datetime) (k : Z) : datetime :=
  let total := hour dt * 3600 + minute dt * 60 + second dt + k in
  let secs := total mod 86400 in
  {| ordinal := ordinal dt + total / 86400;
     hour := secs / 3600;
     minute := (secs mod 3600) / 60;
     second := (secs mod 3600) mod 60;
     microsecond := microsecond dt |}.

(** [dt + timedelta(seconds=k)]: a date outside years 1..9999 is an
    [OverflowError]. *)
Definition datetime_add (dt : datetime) (k : Z) : result datetime :=
  let r := shift dt k in
  if (0 <? ordinal r) && (ordinal r <=? _MAXORDINAL) then Ok r
  else Raise OverflowError.

(** The local clock and time zone, as [datetime] and [time] expose them. *)
Class LocalClock : Type := {
  datetime_now : datetime;              (* datetime.now()                    *)
  tm_isdst : datetime -> Z;             (* time.localtime(time.mktime(
                                           dt.timetuple())).tm_isdst         *)
  time_daylight : Z;                    (* time.daylight                     *)
  time_altzone : Z;                     (* time.altzone, seconds west of UTC *)
  time_timezone : Z;                    (* time.timezone, seconds west       *)
  local_epoch_seconds : datetime -> Z;  (* whole seconds of dt.timestamp()   *)
}.

Section Timestamp.
Context {C : LocalClock}.

(** [_is_dst_local]. *)
Definition _is_dst_local (dt : datetime) : bool := 0 <? tm_isdst dt.

(** [_timezone_offset_minutes]: [int(offset / 60)] truncates towards zero. *)
Definition _timezone_offset_minutes (dt : datetime) : Z :=
  let is_dst := _is_dst_local dt in
  let offset :=
    if is_dst && negb (time_daylight =? 0) then time_altzone
    else time_timezone in
  Z.quot offset 60.

(** [is_dst]. *)
Definition is_dst (dt : datetime) : bool :=
  let jan := datetime_of_date (year dt) 1 1 in
  let jul := datetime_of_date (year dt) 7 1 in
  let max_offset :=
    Z.max (_timezone_offset_minutes jan) (_timezone_offset_minutes jul) in
  _timezone_offset_minutes dt <? max_offset.

(** [int(dt.timestamp() * 1000)].  [timestamp()] is the whole seconds plus
    [microsecond / 1e6] as a float; the script only reaches it with
    [microsecond = 0], where the float product is the exact integer. *)
Definition timestamp_ms (dt : datetime) : Z :=
  1000 * local_epoch_seconds dt + Z.quot (microsecond dt) 1000.

(** The rounding step of [get_timestamp_ms]. *)
Definition round_half_hour (now : datetime) : datetime :=
  let minutes := if minute now <? 31 then 0 else 30 in
  replace_minute now minutes.

(** [get_timestamp_ms]. *)
Definition get_timestamp_ms : result Z :=
  let now := datetime_now in
  let rounded := round_half_hour now in
  (rounded <- (if is_dst rounded then datetime_add rounded (- 3600)
               else Ok rounded) ;;
   rounded <- datetime_add rounded 1800 ;;
   Ok (timestamp_ms rounded))%res.

End Timestamp.

(* ===================================================================== *)
(** * The river level tool *)
(* ===================================================================== *)

Section Tool.
Context {F : PyFloats} {U : UnicodeData} {J : JsonLib} {W : World}
        {C : LocalClock}.

Definition SENSOR_VALUES_URL : str :=
  u "https://allertameteo.regione.emilia-romagna.it/o/api/allerta/"
  ++ u "get-sensor-values-no-time".

(** [urlencode({"variabile": IDROMETRICO_VARIABILE, "time": ts})]: the
    constant is percent-encoded, the digits of [ts] pass unchanged. *)
Definition sensor_query (ts : Z) : str :=
  u "variabile=254%2C0%2C0%2F1%2C-%2C-%2C-%2FB13215&time=" ++ str_of_int ts.

(** [fetch_sensor_values]. *)
Definition fetch_sensor_values : M (Z * list pyval) :=
  (ts <- lift get_timestamp_ms ;;
   let request :=
     {| req_url := SENSOR_VALUES_URL ++ u "?" ++ sensor_query ts;
        req_data := None;
        req_headers := [(u "User-Agent", u "mcp-fiumi-romagna")];
        req_method := u "GET" |} in
   response <- send request REQUEST_TIMEOUT_SEC ;;
   let status := resp_status response in
   if negb (status =? 200) then
     mraise (RuntimeError (u "HTTP " ++ str_of_int status))
   else
     payload <- lift (resp_body response) ;;
     data <- lift (json_loads payload) ;;
     match data with
     | PyList items => mret (ts, items)
     | _ => mraise (RuntimeError (u "Unexpected response format from sensor API"))
     end)%io.

(** [float(value)] inside [format_value]. *)
Definition to_float (value : pyval) : result float :=
  match value with
  | PyBool b =>
      match float_of_int (if b then 1 else 0) with
      | Some x => Ok x
      | None => Raise OverflowError
      end
  | PyInt z =>
      match float_of_int z with
      | Some x => Ok x
      | None => Raise OverflowError
      end
  | PyFloat x => Ok x
  | PyStr s =>
      match float_of_str s with
      | Some x => Ok x
      | None => Raise (ValueError (u "could not convert string to float"))
      end
  | _ => Raise TypeError
  end.

(** [format_value]. *)
Definition format_value (value : pyval) : result str :=
  match value with
  | PyNone => Ok (u "dato non disponibile")
  | PyBool _ | PyInt _ | PyFloat _ =>
      (x <- to_float value ;; Ok (format_2f x ++ u " m"))%res
  | _ =>
      match to_float value with
      | Ok parsed => Ok (format_2f parsed ++ u " m")
      | Raise TypeError | Raise (ValueError _) => Ok (py_str value)
      | Raise e => Raise e
      end
  end.

(** [x or 0]. *)
Definition or_zero (x : pyval) : pyval :=
  if truthy x then x else PyInt 0.

(** One line of [_format_stations_output]. *)
Definition format_station (lines : list str) (entry : dict) : result (list str) :=
  (value <- format_value (get (u "value") entry) ;;
   let soglia1 := get (u "soglia1") entry in
   let soglia2 := get (u "soglia2") entry in
   let soglia3 := get (u "soglia3") entry in
   Ok (lines
       ++ [u "- " ++ py_str (get (u "nomestaz") entry) ++ u ": " ++ value
           ++ u " (soglie " ++ py_str (or_zero soglia1) ++ u "/"
           ++ py_str (or_zero soglia2) ++ u "/" ++ py_str (or_zero soglia3)
           ++ u ")"]))%res.

(** Truthiness of an [int | None]. *)
Definition limit_set (max_results : option Z) : bool :=
  match max_results with
  | Some n => negb (n =? 0)
  | None => false
  end.

(** [_format_stations_output]. *)
Definition _format_stations_output (entries : list dict) (max_results : option Z)
  : result str :=
  let limited :=
    match max_results with
    | Some n => if limit_set max_results then slice_to n entries else entries
    | None => entries
    end in
  (lines <- for_each format_station [] limited ;;
   Ok (str_join [10] lines))%res.

(** [_normalize_max_results]. *)
Definition _normalize_max_results
  (value : pyval) (minimum maximum : Z) (default : option Z)
  : result (option Z) :=
  let not_integer := Raise (ValueError (u "max_results must be an integer")) in
  let in_range (parsed : Z) :=
    if (parsed <? minimum) || (maximum <? parsed) then
      Raise (ValueError
               (u "max_results must be between " ++ str_of_int minimum
                ++ u " and " ++ str_of_int maximum))
    else Ok (Some parsed) in
  match value with
  | PyNone => Ok default
  | PyBool _ => not_integer
  | PyInt z => in_range z
  | PyFloat x =>
      if float_is_integer x then in_range (int_of_float x) else not_integer
  | _ => not_integer
  end.

(** [n] written with at least [width] digits ([%0<width>d], [n >= 0]). *)
Definition zero_pad (width : nat) (n : Z) : str :=
  let digits := str_of_int n in
  repeat 48 (width - List.length digits) ++ digits.

(** [_isoformat_ms]: the UTC date and time of an epoch in milliseconds,
    as [YYYY-MM-DDTHH:MM:SS.mmmZ]; [fromtimestamp] refuses an instant
    outside years 1..9999. *)
Definition _isoformat_ms (timestamp_ms : Z) : result str :=
  let secs := timestamp_ms / 1000 in
  let ms := timestamp_ms mod 1000 in
  let ord := secs / 86400 + 719163 in
  let tod := secs mod 86400 in
  if (0 <? ord) && (ord <=? _MAXORDINAL) then
    let '(y, m, d) := _ord2ymd ord in
    Ok (zero_pad 4 y ++ u "-" ++ zero_pad 2 m ++ u "-" ++ zero_pad 2 d
        ++ u "T" ++ zero_pad 2 (tod / 3600) ++ u ":"
        ++ zero_pad 2 ((tod mod 3600) / 60) ++ u ":"
        ++ zero_pad 2 (tod mod 60) ++ u "." ++ zero_pad 3 ms ++ u "Z")
  else Raise (ValueError (u "year is out of range")).

(** [[item for item in data if item.get("nomestaz")]]. *)
Definition keep_named (kept : list dict) (item : pyval) : result (list dict) :=
  match item with
  | PyDict d => Ok (if truthy (get (u "nomestaz") d) then kept ++ [d] else kept)
  | _ => Raise AttributeError
  end.

(** The message of [livello_idrometrico] when nothing matched. *)
Definition not_found_message (fiume : str) (suggestions : list dict) : str :=
  let message_lines :=
    [u "Nessuna stazione trovata per: " ++ [34] ++ fiume ++ [34] ++ u "."] in
  let message_lines :=
    if nonempty suggestions then
      message_lines
      ++ [u "Possibili stazioni vicine:";
          str_join [10]
            (map (fun entry => u "- " ++ py_str (get (u "nomestaz") entry))
                 suggestions)]
    else message_lines in
  str_join [10] message_lines.

(** [livello_idrometrico]: the two arguments arrive untyped. *)
Definition livello_idrometrico (fiume max_results : pyval) : M str :=
  match fiume with
  | PyStr query =>
      if negb (nonempty (py_strip query)) then
        mraise (ValueError (u "Il parametro 'fiume' è obbligatorio."))
      else
        (max_results <- lift (_normalize_max_results max_results 1 10 None) ;;
         ' (ts, data) <- fetch_sensor_values ;;
         entries <- lift (for_each keep_named [] data) ;;
         let retrieval_limit :=
           Z.min (match max_results with
                  | Some n => if limit_set max_results then n else 5
                  | None => 5
                  end) 5 in
         ' (matches, suggestions) <-
           select_stations_by_query_with_retrieval entries query retrieval_limit ;;
         if negb (nonempty matches) then
           mret (not_found_message query suggestions)
         else
           iso <- lift (_isoformat_ms ts) ;;
           stations <- lift (_format_stations_output matches max_results) ;;
           mret (str_join [10]
                   [u "Livello idrometrico (timestamp richiesta " ++ iso
                    ++ u ") per " ++ [34] ++ query ++ [34] ++ u ":";
                    stations]))%io
  | _ => mraise (ValueError (u "Il parametro 'fiume' è obbligatorio."))
  end.

End Tool.

(* ===================================================================== *)
(** * The station list tool *)
(* ===================================================================== *)

Section Listing.
Context {F : PyFloats} {U : UnicodeData} {J : JsonLib} {W : World}
        {C : LocalClock}.

(** One line of the list: [f"- {entry.get('nomestaz')}"]. *)
Definition station_line (entry : dict) : str :=
  u "- " ++ py_str (get (u "nomestaz") entry).

(** The entries [elenco_stazioni_idrometriche] keeps: those whose
    normalised name contains the normalised filter, or all of them when the
    filter is absent, empty, or empty once normalised. *)
Definition filter_stations (filtro : pyval) (entries : list dict) : list dict :=
  let normalized :=
    if truthy filtro then Some (normalize_text filtro) else None in
  match normalized with
  | Some n =>
      if nonempty n
      then filter (fun entry => str_contains n (entry_name entry)) entries
      else entries
  | None => entries
  end.

(** The text [elenco_stazioni_idrometriche] returns for the stations
    listed. *)
Definition list_output (listed : list dict) : str :=
  let output := str_join [10] (map station_line listed) in
  if nonempty output then output
  else u "Nessuna stazione disponibile con il filtro indicato.".

(** [elenco_stazioni_idrometriche]: the two arguments arrive untyped. *)
Definition elenco_stazioni_idrometriche (filtro max_results : pyval) : M str :=
  match filtro with
  | PyNone | PyStr _ =>
      (max_results <- lift (_normalize_max_results max_results 1 50 (Some 50)) ;;
       ' (ts, data) <- fetch_sensor_values ;;
       entries <- lift (for_each keep_named [] data) ;;
       let filtered := filter_stations filtro entries in
       let listed :=
         match max_results with
         | Some n => slice_to n filtered
         | None => filtered
         end in
       mret (list_output listed))%io
  | _ => mraise (ValueError (u "Il parametro 'filtro' deve essere una stringa."))
  end.

End Listing.

(* ===================================================================== *)
(** * Executable models of the interfaces *)
(* ===================================================================== *)

(** ** Floats with two decimals: [x] stands for [x / 100]. *)

Definition is_digit (c : Z) : bool := (48 <=? c) && (c <=? 57).

(** The number written by a string of digits. *)
Fixpoint digits_value (acc : Z) (s : str) : option Z :=
  match s with
  | [] => Some acc
  | c :: r => if is_digit c then digits_value (acc * 10 + (c - 48)) r else None
  end.

(** Splits [s] at its first character [c]. *)
Fixpoint split_at (c : Z) (s : str) : str * option str :=
  match s with
  | [] => ([], None)
  | x :: r =>
      if x =? c then ([], Some r)
      else let '(a, b) := split_at c r in (x :: a, b)
  end.

(** [float(s)] for a plain decimal with at most two decimals. *)
Definition centi_of_str (s : str) : option Z :=
  let s := py_strip s in
  let '(neg, body) :=
    match s with
    | 45 :: r => (true, r)
    | _ => (false, s)
    end in
  let '(whole, frac) := split_at 46 body in
  match whole, digits_value 0 whole with
  | _ :: _, Some w =>
      let cents :=
        match frac with
        | None => Some 0
        | Some [] => Some 0
        | Some [a] => option_map (Z.mul 10) (digits_value 0 [a])
        | Some [a; b] => digits_value 0 [a; b]
        | Some _ => None
        end in
      option_map (fun c => if neg then - (w * 100 + c) else w * 100 + c) cents
  | _, _ => None
  end.

Definition centi_sign (x : Z) : str := if x <? 0 then [45] else [].

(** [format(x, ".2f")]. *)
Definition centi_format_2f (x : Z) : str :=
  let a := Z.abs x in
  centi_sign x ++ str_of_int (a / 100) ++ [46; 48 + (a mod 100) / 10; 48 + a mod 10].

(** [repr(x)]: the shortest decimal, with at least one decimal. *)
Definition centi_repr (x : Z) : str :=
  let a := Z.abs x in
  centi_sign x ++ str_of_int (a / 100)
  ++ (if a mod 10 =? 0 then [46; 48 + (a mod 100) / 10]
      else [46; 48 + (a mod 100) / 10; 48 + a mod 10]).

Definition centi_floats : PyFloats :=
  {| float := Z;
     float_repr := centi_repr;
     float_of_int := fun n => Some (100 * n);
     float_of_str := centi_of_str;
     float_is_integer := fun x => x mod 100 =? 0;
     float_nonzero := fun x => negb (x =? 0);
     int_of_float := fun x => Z.quot x 100;
     format_2f := centi_format_2f |}.

(** ** The Unicode database on ASCII and the Latin-1 letters. *)

(** Canonical decompositions of U+00C0..U+00DF by offset: the base
    letter and the combining mark; the small letters U+00E0..U+00FF follow
    the same table, and U+00FF is y with diaeresis. *)
Definition latin1_table : list (option (Z * Z)) :=
  [Some (65, 768); Some (65, 769); Some (65, 770); Some (65, 771);
   Some (65, 776); Some (65, 778); None; Some (67, 807);
   Some (69, 768); Some (69, 769); Some (69, 770); Some (69, 776);
   Some (73, 768); Some (73, 769); Some (73, 770); Some (73, 776);
   None; Some (78, 771); Some (79, 768); Some (79, 769);
   Some (79, 770); Some (79, 771); Some (79, 776); None;
   None; Some (85, 768); Some (85, 769); Some (85, 770);
   Some (85, 776); Some (89, 769); None; None].

Definition latin1_decompose (c : Z) : str :=
  if (192 <=? c) && (c <=? 223) then
    match nth (Z.to_nat (c - 192)) latin1_table None with
    | Some (base, mark) => [base; mark]
    | None => [c]
    end
  else if c =? 255 then [121; 776]
  else if (224 <=? c) && (c <=? 254) then
    match nth (Z.to_nat (c - 224)) latin1_table None with
    | Some (base, mark) => [base + 32; mark]
    | None => [c]
    end
  else [c].

Definition latin1_lower (c : Z) : Z :=
  if (192 <=? c) && (c <=? 222) && negb (c =? 215) then c + 32
  else ascii_lower c.

(** [\w] up to U+00FF: letters, digits and the underscore; beyond ASCII the
    two ordinal indicators, the superscript digits, the micro sign, the
    three fractions and the accented letters. *)
Definition latin1_word (c : Z) : bool :=
  is_az09 c || ((65 <=? c) && (c <=? 90)) || (c =? 95)
  || (c =? 170) || (c =? 178) || (c =? 179) || (c =? 181) || (c =? 185)
  || (c =? 186) || ((188 <=? c) && (c <=? 190))
  || ((192 <=? c) && (c <=? 255) && negb (c =? 215) && negb (c =? 247)).

(** A pattern letter against a character under [re.IGNORECASE]: equal once
    lowered; besides, [i] matches the dotted capital and the dotless small
    i (U+0130, U+0131) and [s] the long s (U+017F). *)
Definition latin1_ieq (p c : Z) : bool :=
  (latin1_lower p =? latin1_lower c)
  || ((latin1_lower p =? 105) && ((c =? 304) || (c =? 305)))
  || ((latin1_lower p =? 115) && (c =? 383)).

(** [repr(s)] for a string without quotes, backslashes or control
    characters. *)
Definition plain_repr (s : str) : str := [39] ++ s ++ [39].

Definition latin1_unicode : UnicodeData :=
  {| nfd := flat_map latin1_decompose;
     category_is_Mn := fun c => (768 <=? c) && (c <=? 879);
     str_lower := map latin1_lower;
     str_repr := plain_repr;
     re_word := latin1_word;
     re_ieq := latin1_ieq |}.

(** ** A JSON reader and writer: [null], [true], [false], integers,
    decimals with one or two decimals, strings with their escapes, arrays
    and objects.  The reader fails as [json.loads] does: with
    [JSONDecodeError] on text that is not JSON, and with the [ValueError] of
    the interpreter's limit on integer conversion (4300 digits) on an
    integer literal beyond it.  A float that the two-decimal model cannot
    hold (more decimals, an exponent, [NaN], [Infinity]) is outside the
    reader, which refuses the literal; the guard on the depth of nesting
    ([RecursionError]) depends on the interpreter's stack and is not
    modelled either. *)

Section JsonModel.
#[local] Existing Instance centi_floats.
#[local] Existing Instance latin1_unicode.

Definition json_ws (c : Z) : bool :=
  (c =? 32) || (c =? 9) || (c =? 10) || (c =? 13).

Fixpoint skip_ws (s : str) : str :=
  match s with
  | c :: r => if json_ws c then skip_ws r else s
  | [] => []
  end.

(** The value of a hexadecimal digit, and of four of them. *)
Definition hex_value (c : Z) : option Z :=
  if is_digit c then Some (c - 48)
  else if (97 <=? c) && (c <=? 102) then Some (c - 87)
  else if (65 <=? c) && (c <=? 70) then Some (c - 55)
  else None.

Definition hex4 (a b c d : Z) : option Z :=
  match hex_value a, hex_value b, hex_value c, hex_value d with
  | Some a, Some b, Some c, Some d => Some (((a * 16 + b) * 16 + c) * 16 + d)
  | _, _, _, _ => None
  end.

(** The character of a two-character escape. *)
Definition simple_escape (e : Z) : option Z :=
  if e =? 34 then Some 34 else if e =? 92 then Some 92
  else if e =? 47 then Some 47 else if e =? 98 then Some 8
  else if e =? 102 then Some 12 else if e =? 110 then Some 10
  else if e =? 114 then Some 13 else if e =? 116 then Some 9
  else None.

Definition is_high_surrogate (c : Z) : bool := (55296 <=? c) && (c <=? 56319).
Definition is_low_surrogate (c : Z) : bool := (56320 <=? c) && (c <=? 57343).

Definition join_surrogates (hi lo : Z) : Z :=
  65536 + (hi - 55296) * 1024 + (lo - 56320).

Definition cons_char (c : Z) (read : option (str * str)) : option (str * str) :=
  match read with
  | Some (body, rest) => Some (c :: body, rest)
  | None => None
  end.

(** The characters of a string literal after its opening quote.  A
    [\uXXXX] escape of a high surrogate followed by one of a low surrogate
    is one character; a surrogate on its own is kept. *)
Fixpoint read_string (s : str) : option (str * str) :=
  match s with
  | [] => None
  | c :: r =>
      if c =? 34 then Some ([], r)
      else if c =? 92 then
        match r with
        | [] => None
        | e :: r1 =>
            if e =? 117 then
              match r1 with
              | a :: b :: c1 :: d :: r2 =>
                  match hex4 a b c1 d with
                  | None => None
                  | Some hi =>
                      match r2 with
                      | x :: y :: a' :: b' :: c' :: d' :: r3 =>
                          if is_high_surrogate hi && (x =? 92) && (y =? 117) then
                            match hex4 a' b' c' d' with
                            | None => None
                            | Some lo =>
                                cons_char
                                  (if is_low_surrogate lo
                                   then join_surrogates hi lo else hi)
                                  (read_string
                                     (if is_low_surrogate lo then r3 else r2))
                            end
                          else cons_char hi (read_string r2)
                      | _ => cons_char hi (read_string r2)
                      end
                  end
              | _ => None
              end
            else
              match simple_escape e with
              | Some c' => cons_char c' (read_string r1)
              | None => None
              end
        end
      else if c <? 32 then None
      else cons_char c (read_string r)
  end.

(** The digits at the head of [s]. *)
Fixpoint read_digits (s : str) : str * str :=
  match s with
  | c :: r =>
      if is_digit c then let '(d, rest) := read_digits r in (c :: d, rest)
      else ([], s)
  | [] => ([], [])
  end.

(** [sys.get_int_max_str_digits()], and what [int] says of a longer
    string of digits. *)
Definition INT_MAX_STR_DIGITS : Z := 4300.

Definition digit_limit_message (digits : Z) : str :=
  u "Exceeds the limit (4300 digits) for integer string conversion: value has "
  ++ str_of_int digits
  ++ u " digits; use sys.set_int_max_str_digits() to increase the limit".

(** An exponent at the head of [s]: [e] or [E], a sign if any, a digit. *)
Definition has_exponent (s : str) : bool :=
  match s with
  | c :: r =>
      ((c =? 101) || (c =? 69))
      && match r with
         | x :: r' =>
             if (x =? 43) || (x =? 45) then
               match r' with
               | y :: _ => is_digit y
               | [] => false
               end
             else is_digit x
         | [] => false
         end
  | [] => false
  end.

(** A number literal after its sign.  Without decimals and exponent it is
    an integer, converted by [int], which refuses more than 4300 digits
    with [ValueError]; with one or two decimals it is a float of the model;
    a leading zero before another digit never parses. *)
Definition read_number (neg : bool) (s : str) : result (pyval * str) :=
  let '(d, rest) := read_digits s in
  let signed (n : Z) := if neg then - n else n in
  let integer :=
    if INT_MAX_STR_DIGITS <? Z.of_nat (List.length d) then
      Raise (ValueError (digit_limit_message (Z.of_nat (List.length d))))
    else
      match digits_value 0 d with
      | Some n => Ok (PyInt (signed n), rest)
      | None => Raise JSONDecodeError
      end in
  match d with
  | [] => Raise JSONDecodeError
  | 48 :: _ :: _ => Raise JSONDecodeError
  | _ :: _ =>
      match rest with
      | 46 :: rest1 =>
          let '(f, rest2) := read_digits rest1 in
          match f with
          | [] => integer
          | _ :: _ =>
              if has_exponent rest2 then Raise JSONDecodeError
              else
                match f, digits_value 0 d, digits_value 0 f with
                | [_], Some n, Some c =>
                    Ok (PyFloat (signed (n * 100 + c * 10)), rest2)
                | [_; _], Some n, Some c =>
                    Ok (PyFloat (signed (n * 100 + c)), rest2)
                | _, _, _ => Raise JSONDecodeError
                end
          end
      | _ => if has_exponent rest then Raise JSONDecodeError else integer
      end
  end.

(** [d[k] = v]: a key already present keeps its place. *)
Fixpoint dict_set (k : str) (v : pyval) (d : dict) : dict :=
  match d with
  | [] => [(k, v)]
  | (k', v') :: r =>
      if str_eqb k k' then (k, v) :: r else (k', v') :: dict_set k v r
  end.

(** One JSON value at the head of [s] (after white space), and the text
    after it.  [fuel] bounds the nesting and the number of items. *)
Fixpoint read_value (fuel : nat) (s : str) : result (pyval * str) :=
  match fuel with
  | O => Raise JSONDecodeError
  | S fuel' =>
      let read_items :=
        fix read_items (n : nat) (acc : list pyval) (s : str)
          : result (pyval * str) :=
          match n with
          | O => Raise JSONDecodeError
          | S n' =>
              match read_value fuel' s with
              | Ok (v, rest) =>
                  match skip_ws rest with
                  | 44 :: rest' => read_items n' (acc ++ [v]) rest'
                  | 93 :: rest' => Ok (PyList (acc ++ [v]), rest')
                  | _ => Raise JSONDecodeError
                  end
              | Raise e => Raise e
              end
          end in
      let read_members :=
        fix read_members (n : nat) (acc : dict) (s : str)
          : result (pyval * str) :=
          match n with
          | O => Raise JSONDecodeError
          | S n' =>
              match skip_ws s with
              | 34 :: s1 =>
                  match read_string s1 with
                  | Some (k, s2) =>
                      match skip_ws s2 with
                      | 58 :: s3 =>
                          match read_value fuel' s3 with
                          | Ok (v, rest) =>
                              match skip_ws rest with
                              | 44 :: rest' => read_members n' (dict_set k v acc) rest'
                              | 125 :: rest' => Ok (PyDict (dict_set k v acc), rest')
                              | _ => Raise JSONDecodeError
                              end
                          | Raise e => Raise e
                          end
                      | _ => Raise JSONDecodeError
                      end
                  | None => Raise JSONDecodeError
                  end
              | _ => Raise JSONDecodeError
              end
          end in
      match skip_ws s with
      | 110 :: 117 :: 108 :: 108 :: r => Ok (PyNone, r)
      | 116 :: 114 :: 117 :: 101 :: r => Ok (PyBool true, r)
      | 102 :: 97 :: 108 :: 115 :: 101 :: r => Ok (PyBool false, r)
      | 34 :: r =>
          match read_string r with
          | Some (body, rest) => Ok (PyStr body, rest)
          | None => Raise JSONDecodeError
          end
      | 91 :: r =>
          match skip_ws r with
          | 93 :: rest => Ok (PyList [], rest)
          | _ => read_items fuel' [] r
          end
      | 123 :: r =>
          match skip_ws r with
          | 125 :: rest => Ok (PyDict [], rest)
          | _ => read_members fuel' [] r
          end
      | 45 :: r => read_number true r
      | c :: r =>
          if is_digit c then read_number false (c :: r)
          else Raise JSONDecodeError
      | [] => Raise JSONDecodeError
      end
  end.

(** [json.loads]: one value and nothing but white space after it. *)
Definition model_loads (s : str) : result pyval :=
  match read_value (S (List.length s)) s with
  | Ok (v, rest) =>
      match skip_ws rest with
      | [] => Ok v
      | _ :: _ => Raise JSONDecodeError
      end
  | Raise e => Raise e
  end.

(** A hexadecimal digit in lower case, and a [\uXXXX] escape. *)
Definition hex_digit (n : Z) : Z := if n <? 10 then 48 + n else 87 + n.

Definition escape_u (n : Z) : str :=
  [92; 117; hex_digit (n / 4096 mod 16); hex_digit (n / 256 mod 16);
   hex_digit (n / 16 mod 16); hex_digit (n mod 16)].

(** A character in a string literal of [json.dumps] ([ensure_ascii] is
    on): the quote, the backslash and what is not printable ASCII are
    escaped, a character beyond U+FFFF as its two surrogates. *)
Definition write_char (c : Z) : str :=
  if c =? 34 then [92; 34] else if c =? 92 then [92; 92]
  else if c =? 10 then [92; 110] else if c =? 13 then [92; 114]
  else if c =? 9 then [92; 116] else if c =? 12 then [92; 102]
  else if c =? 8 then [92; 98]
  else if (32 <=? c) && (c <=? 126) then [c]
  else if c <? 65536 then escape_u c
  else
    let n := c - 65536 in
    escape_u (55296 + n / 1024 mod 1024) ++ escape_u (56320 + n mod 1024).

(** A string literal of [json.dumps]. *)
Definition write_string (s : str) : str := [34] ++ flat_map write_char s ++ [34].

(** [json.dumps]. *)
Fixpoint model_dumps (v : pyval) : str :=
  match v with
  | PyNone => u "null"
  | PyBool true => u "true"
  | PyBool false => u "false"
  | PyInt z => str_of_int z
  | PyFloat x => centi_repr x
  | PyStr s => write_string s
  | PyList l => u "[" ++ str_join (u ", ") (map model_dumps l) ++ u "]"
  | PyDict d =>
      u "{"
      ++ str_join (u ", ")
           (map (fun kv => write_string (fst kv) ++ u ": " ++ model_dumps (snd kv)) d)
      ++ u "}"
  end.

Definition model_json : JsonLib :=
  {| json_loads := model_loads; json_dumps := model_dumps |}.

End JsonModel.

(** ** Environments and networks. *)

(** An environment given by its variables and a network given by its
    answer. *)
Definition make_world (env : list (str * str))
  (net : Request -> Z -> result Response) : World :=
  {| getenv := fun name =>
       option_map snd (find (fun kv => str_eqb name (fst kv)) env);
     urlopen := net |}.

(** Both retrieval secrets set. *)
Definition secrets : list (str * str) :=
  [(u "OPENAI_API_KEY", u "sk-test"); (u "OPENAI_VECTOR_STORE_ID", u "vs_1")].

(** Only the API key set. *)
Definition key_only : list (str * str) := [(u "OPENAI_API_KEY", u "sk-test")].

(** A network that cannot be reached. *)
Definition unreachable : Request -> Z -> result Response :=
  fun _ _ => Raise URLError.

(** A network that refuses the credentials. *)
Definition unauthorized : Request -> Z -> result Response :=
  fun _ _ => Raise (HTTPError 401).

(** A network that answers every request with status 200 and [body]. *)
Definition answering (body : str) : Request -> Z -> result Response :=
  fun _ _ => Ok {| resp_status := 200; resp_body := Ok body |}.

(** The body of a completion whose single message holds [text]. *)
Definition completion_body (text : str) : str :=
  model_dumps
    (PyDict
       [(u "output",
         PyList
           [PyDict
              [(u "type", PyStr (u "message"));
               (u "content",
                PyList
                  [PyDict [(u "type", PyStr (u "output_text"));
                           (u "text", PyStr text)]])]])]).

(** A station record with a name. *)
Definition station (name : string) : @dict centi_floats :=
  [(u "nomestaz", @PyStr centi_floats (u name))].

(** ** A Central European clock, by the rule in force since 1996: one
    hour east of UTC, two in summer, which runs from the last Sunday of
    March 02:00 to the last Sunday of October 03:00, wall time.  The hour
    that the clocks skip in March, 02:00 to 03:00, is read as [mktime] and
    [timestamp()] read it: [tm_isdst] is already 1, the offset from UTC
    still one hour.  The hour that comes twice in October is read as its
    first, summer, occurrence. *)

(** The last Sunday of month [m] (of 31 days) in year [y]; [weekday()] of
    an ordinal is [(ordinal + 6) mod 7], Sunday being 6. *)
Definition last_sunday (y m : Z) : Z :=
  let last := _ymd2ord y m 31 in
  last - ((last + 6) mod 7 + 1) mod 7.

Definition day_seconds (dt : datetime) : Z :=
  hour dt * 3600 + minute dt * 60 + second dt.

Definition cet_summer (dt : datetime) : bool :=
  let y := year dt in
  let wall := ordinal dt * 86400 + day_seconds dt in
  (last_sunday y 3 * 86400 + 7200 <=? wall)
  && (wall <? last_sunday y 10 * 86400 + 10800).

(** The wall times whose offset from UTC is two hours. *)
Definition cet_two_hours (dt : datetime) : bool :=
  let y := year dt in
  let wall := ordinal dt * 86400 + day_seconds dt in
  (last_sunday y 3 * 86400 + 10800 <=? wall)
  && (wall <? last_sunday y 10 * 86400 + 10800).

Definition cet_clock (now : datetime) : LocalClock :=
  {| datetime_now := now;
     tm_isdst := fun dt => if cet_summer dt then 1 else 0;
     time_daylight := 1;
     time_altzone := -7200;
     time_timezone := -3600;
     local_epoch_seconds := fun dt =>
       (ordinal dt - 719163) * 86400 + day_seconds dt
       - (if cet_two_hours dt then 7200 else 3600) |}.

(** A clock three quarters of an hour off the 30-minute grid (UTC+05:45),
    without daylight saving. *)
Definition npt_clock (now : datetime) : LocalClock :=
  {| datetime_now := now;
     tm_isdst := fun _ => 0;
     time_daylight := 0;
     time_altzone := -20700;
     time_timezone := -20700;
     local_epoch_seconds := fun dt =>
       (ordinal dt - 719163) * 86400 + day_seconds dt - 20700 |}.

(** [datetime(y, m, d, hh, mm, ss)]. *)
Definition at_time (y m d hh mm ss : Z) : datetime :=
  {| ordinal := _ymd2ord y m d; hour := hh; minute := mm; second := ss;
     microsecond := 0 |}.

(* ===================================================================== *)
(** * What the proofs assume of the interfaces *)
(* ===================================================================== *)

Unset Implicit Arguments.

(** The Unicode database on ASCII text: no decomposition, no combining
    mark, and [lower] acts letter by letter. *)
Class UnicodeLaws (U : UnicodeData) : Prop := {
  nfd_ascii : forall s, Forall is_ascii s -> nfd s = s;
  Mn_ascii : forall c, is_ascii c -> category_is_Mn c = false;
  lower_ascii : forall s, Forall is_ascii s -> str_lower s = map ascii_lower s;
}.

(** [str] of a float is never blank. *)
Class FloatLaws (F : PyFloats) : Prop := {
  float_repr_nonblank : forall x : float, py_strip (float_repr x) <> [];
}.

(** The fields of a [datetime] are those of a time of day. *)
Definition valid_time (dt : datetime) : Prop :=
  0 <= hour dt < 24 /\ 0 <= minute dt < 60 /\ 0 <= second dt < 60
  /\ 0 <= microsecond dt < 1000000.

(** Seconds from 1970-01-01 00:00 to [dt], both read on the wall clock. *)
Definition wall_seconds (dt : datetime) : Z :=
  (ordinal dt - 719163) * 86400 + day_seconds dt.

(** What the matcher calls the score of an entry for a query. *)
Definition query_tokens {F : PyFloats} {U : UnicodeData} (query : str) : list str :=
  tokenize (normalize_text (PyStr (strip_generic_words (PyStr query)))).

Definition entry_score {F : PyFloats} {U : UnicodeData} (query : str) (entry : dict) : Z :=
  token_score (query_tokens query) (entry_name entry).

(** What the tool's validation refuses as a result count: a [bool], a
    value that is neither [None] nor a number, a float with a fraction, a
    number outside 1..10. *)
Definition bad_max_results {F : PyFloats} (v : pyval) : bool :=
  match v with
  | PyNone => false
  | PyInt z => (z <? 1) || (10 <? z)
  | PyFloat x =>
      negb (float_is_integer x)
      || (int_of_float x <? 1) || (10 <? int_of_float x)
  | _ => true
  end.

(** What the tool's validation refuses as a query: anything but a string
    with a character that is not white space. *)
Definition bad_query {F : PyFloats} (v : pyval) : bool :=
  match v with
  | PyStr s => negb (nonempty (py_strip s))
  | _ => true
  end.

(** [tidy b s]: [s] is made of letters [a-z], digits and single spaces;
    with [b] set it does not begin with a space. *)
Fixpoint tidy (after_space : bool) (s : str) : bool :=
  match s with
  | [] => true
  | c :: r =>
      if is_az09 c then tidy false r
      else (c =? 32) && negb after_space && tidy true r
  end.

(** Order and selection by key in a list of scored items. *)
Definition key_ge {A : Type} (x y : Z * A) : Prop := fst x >= fst y.

Definition has_key {A : Type} (k : Z) (x : Z * A) : bool := fst x =? k.

(** A pair of the ranking carries the score of its entry, and that score
    is positive. *)
Definition well_tagged {F : PyFloats} {U : UnicodeData}
  (tokens : list str) (p : Z * dict) : Prop :=
  fst p = token_score tokens (entry_name (snd p)) /\ 0 < fst p.

(** The response text of the bracket-extraction scenario,
    [here are results: ["Stazione A", "Stazione B"] thanks], and its
    bracketed part. *)
Definition scenario_group : str :=
  u "[" ++ [34] ++ u "Stazione A" ++ [34] ++ u ", " ++ [34] ++ u "Stazione B"
  ++ [34] ++ u "]".

Definition scenario_text : str :=
  u "here are results: " ++ scenario_group ++ u " thanks".

(** A wall-clock time on a half-hour boundary. *)
Definition on_half_hour (dt : datetime) : Prop :=
  0 <= hour dt < 24 /\ (minute dt = 0 \/ minute dt = 30) /\ second dt = 0
  /\ microsecond dt = 0.

(** A response whose array holds a string, a number, a boolean, a blank
    string and an object. *)
Definition mixed_world : World :=
  make_world secrets
    (answering
       (completion_body
          (u "[" ++ [34] ++ u " Secchia " ++ [34] ++ u ", 12, true, " ++ [34]
           ++ u "  " ++ [34] ++ u ", {}]"))).

(** A part of a message that holds the output text [text]. *)
Definition text_part {F : PyFloats} (text : str) : pyval :=
  PyDict [(u "type", PyStr (u "output_text")); (u "text", PyStr text)].

(** A completion with one message whose parts are the output texts
    [texts]. *)
Definition message_response {F : PyFloats} (texts : list str) : pyval :=
  PyDict
    [(u "output",
      PyList
        [PyDict
           [(u "type", PyStr (u "message"));
            (u "content", PyList (map text_part texts))]])].

(** An output item that is an object of a type other than ["message"]. *)
Definition other_item {F : PyFloats} (item : pyval) : Prop :=
  exists d, item = PyDict d
            /\ is_str (get_or (u "type") PyNone d) (u "message") = false.

(** What [_normalize_max_results] refuses for the bounds [minimum] and
    [maximum]: a [bool], a value that is neither [None] nor a number, a float
    with a fraction, a number outside the bounds. *)
Definition bad_count {F : PyFloats} (minimum maximum : Z) (v : pyval) : bool :=
  match v with
  | PyNone => false
  | PyInt z => (z <? minimum) || (maximum <? z)
  | PyFloat x =>
      negb (float_is_integer x)
      || (int_of_float x <? minimum) || (maximum <? int_of_float x)
  | _ => true
  end.

(** What [elenco_stazioni_idrometriche] refuses as a filter: anything but
    [None] and a string. *)
Definition bad_filter {F : PyFloats} (v : pyval) : bool :=
  match v with
  | PyNone | PyStr _ => false
  | _ => true
  end.

(** [single_spaced b s]: every white-space character of [s] is a plain
    space, no two of them are neighbours, and with [b] set the first
    character is not one. *)
Fixpoint single_spaced (after_space : bool) (s : str) : bool :=
  match s with
  | [] => true
  | c :: r =>
      if py_isspace c then (c =? 32) && negb after_space && single_spaced true r
      else single_spaced false r
  end.

(** The request [fetch_sensor_values] sends for the timestamp [ts]. *)
Definition sensor_request (ts : Z) : Request :=
  {| req_url := SENSOR_VALUES_URL ++ u "?" ++ sensor_query ts;
     req_data := None;
     req_headers := [(u "User-Agent", u "mcp-fiumi-romagna")];
     req_method := u "GET" |}.

(** A sensor service that answers every request with status 200 and the
    JSON text of [stations]; an environment without retrieval secrets. *)
Definition sensor_world (body : str) : World := make_world [] (answering body).

(** The JSON text of three station records, one of them without a name. *)
Definition three_stations : str :=
  u "[{" ++ [34] ++ u "nomestaz" ++ [34] ++ u ": " ++ [34] ++ u "Secchia a Lama"
  ++ [34] ++ u "}, {" ++ [34] ++ u "value" ++ [34] ++ u ": 1}, {" ++ [34]
  ++ u "nomestaz" ++ [34] ++ u ": " ++ [34] ++ u "Reno a Bastia" ++ [34]
  ++ u "}]".

(** [elenco_stazioni_idrometriche] on a sensor service that answers with
    the three records, on a Central European clock in July. *)
Definition run_list (filtro max_results : pyval) :=
  @elenco_stazioni_idrometriche centi_floats latin1_unicode model_json
    (sensor_world three_stations) (cet_clock (at_time 2024 7 10 10 15 20))
    filtro max_results [].

(* ===================================================================== *)
(** * Strings: substrings, trimming, run replacement *)
(* ===================================================================== *)

(** Case analysis on every integer comparison in the goal. *)
Ltac zcases :=
  repeat match goal with
    | |- context [?a <=? ?b] => destruct (Z.leb_spec a b)
    | |- context [?a <? ?b] => destruct (Z.ltb_spec a b)
    | |- context [?a =? ?b] => destruct (Z.eqb_spec a b)
    end;
  simpl; try reflexivity; try lia; try discriminate.

(** Every integer comparison of the goal that [lia] can settle is replaced
    by its value. *)
Ltac zdecide :=
  repeat match goal with
    | |- context [?a <=? ?b] =>
        first [ rewrite (proj2 (Z.leb_le a b)) by lia
              | rewrite (proj2 (Z.leb_gt a b)) by lia ]
    | |- context [?a <? ?b] =>
        first [ rewrite (proj2 (Z.ltb_lt a b)) by lia
              | rewrite (proj2 (Z.ltb_ge a b)) by lia ]
    | |- context [?a =? ?b] =>
        first [ rewrite (proj2 (Z.eqb_eq a b)) by lia
              | rewrite (proj2 (Z.eqb_neq a b)) by lia ]
    end.

Lemma str_eqb_eq (a b : str) : str_eqb a b = true <-> a = b.
Proof.
  unfold str_eqb. destruct (list_eq_dec Z.eq_dec a b); split; congruence.
Qed.

Lemma starts_with_spec (t s : str) :
  starts_with t s = true <-> exists b, s = t ++ b.
Proof.
  revert s. induction t as [|a t IH]; intros s; simpl.
  - split; [intros _; now exists s | reflexivity].
  - destruct s as [|c s].
    + split; [discriminate | intros [b Hb]; discriminate].
    + rewrite andb_true_iff, Z.eqb_eq, IH. split.
      * intros [-> [b ->]]. now exists b.
      * intros [b Hb]. injection Hb as -> ->. split; [reflexivity | now exists b].
Qed.

Lemma str_contains_spec (t s : str) :
  str_contains t s = true <-> exists a b, s = a ++ t ++ b.
Proof.
  induction s as [|c s IH].
  - simpl. rewrite orb_false_r, starts_with_spec. split.
    + intros [b Hb]. now exists [], b.
    + intros [a [b Hab]]. destruct a; [now exists b | discriminate].
  - cbn [str_contains]. rewrite orb_true_iff, starts_with_spec, IH. split.
    + intros [[b Hb] | [a [b Hab]]].
      * now exists [], b.
      * exists (c :: a), b. simpl. now rewrite Hab.
    + intros [a [b Hab]]. destruct a as [|x a].
      * left. now exists b.
      * right. injection Hab as -> ->. now exists a, b.
Qed.

Lemma lstrip_head (s : str) :
  match lstrip s with
  | [] => True
  | c :: _ => py_isspace c = false
  end.
Proof.
  induction s as [|c s IH]; simpl; [exact I|].
  destruct (py_isspace c) eqn:E; [exact IH | exact E].
Qed.

Lemma rstrip_keeps_head (c : Z) (r : str) :
  py_isspace c = false -> exists r', rstrip (c :: r) = c :: r'.
Proof.
  intros Hc. simpl. destruct (rstrip r) as [|x xs].
  - rewrite Hc. now exists [].
  - now exists (x :: xs).
Qed.

Lemma rstrip_idempotent (s : str) : rstrip (rstrip s) = rstrip s.
Proof.
  induction s as [|c s IH]; simpl; [reflexivity|].
  destruct (rstrip s) as [|x xs] eqn:E.
  - destruct (py_isspace c) eqn:Hc; simpl; [reflexivity | now rewrite Hc].
  - change (rstrip (c :: x :: xs)) with
      (match rstrip (x :: xs) with
       | [] => if py_isspace c then [] else [c]
       | r' => c :: r'
       end).
    now rewrite IH.
Qed.

(** A trimmed string is empty or starts with a character that is not
    white space. *)
Lemma py_strip_head (s : str) :
  match py_strip s with
  | [] => True
  | c :: _ => py_isspace c = false
  end.
Proof.
  unfold py_strip. pose proof (lstrip_head s) as H.
  destruct (lstrip s) as [|c r]; simpl; [exact I|].
  destruct (rstrip_keeps_head c r H) as [r' Hr']. simpl in Hr'. now rewrite Hr'.
Qed.

Lemma lstrip_fixed (s : str) :
  match s with [] => True | c :: _ => py_isspace c = false end -> lstrip s = s.
Proof. destruct s as [|c r]; simpl; [reflexivity | now intros ->]. Qed.

Lemma py_strip_idempotent (s : str) : py_strip (py_strip s) = py_strip s.
Proof.
  unfold py_strip at 1. rewrite (lstrip_fixed _ (py_strip_head s)).
  unfold py_strip. apply rstrip_idempotent.
Qed.

Lemma py_strip_nonblank (c : Z) (r : str) :
  py_isspace c = false -> py_strip (c :: r) <> [].
Proof.
  intros Hc. unfold py_strip. cbn [lstrip]. rewrite Hc.
  destruct (rstrip_keeps_head c r Hc) as [r' ->]. discriminate.
Qed.

Lemma tidy_sub_runs (b : bool) (s : str) : tidy b (sub_runs not_az09 b s) = true.
Proof.
  revert b. induction s as [|c s IH]; intros b; simpl; [reflexivity|].
  unfold not_az09 at 1. destruct (is_az09 c) eqn:E; simpl.
  - rewrite E. apply IH.
  - destruct b; [apply IH|]. simpl. apply IH.
Qed.

Lemma sub_runs_tidy (b : bool) (s : str) :
  tidy b s = true -> sub_runs not_az09 b s = s.
Proof.
  revert b. induction s as [|c s IH]; intros b; simpl; [reflexivity|].
  unfold not_az09 at 1. destruct (is_az09 c) eqn:E; simpl.
  - intros H. now rewrite (IH _ H).
  - rewrite !andb_true_iff, Z.eqb_eq, negb_true_iff.
    intros [[-> ->] H]. now rewrite (IH _ H).
Qed.

Lemma tidy_weaken (s : str) : tidy true s = true -> tidy false s = true.
Proof.
  destruct s as [|c s]; simpl; [reflexivity|].
  destruct (is_az09 c); [easy|]. rewrite andb_false_r. discriminate.
Qed.

Lemma tidy_tail (b : bool) (c : Z) (s : str) :
  tidy b (c :: s) = true -> tidy false s = true.
Proof.
  simpl. destruct (is_az09 c); [easy|].
  rewrite !andb_true_iff. intros [_ H]. now apply tidy_weaken.
Qed.

Lemma tidy_lstrip (b : bool) (s : str) :
  tidy b s = true -> tidy false (lstrip s) = true.
Proof.
  revert b. induction s as [|c s IH]; intros b H; [reflexivity|].
  cbn [lstrip]. destruct (py_isspace c).
  - apply (IH false). exact (tidy_tail _ _ _ H).
  - destruct b; [now apply tidy_weaken | exact H].
Qed.

Lemma tidy_cons (b : bool) (c : Z) (r : str) :
  tidy b (c :: r)
  = if is_az09 c then tidy false r else (c =? 32) && negb b && tidy true r.
Proof. reflexivity. Qed.

Lemma tidy_rstrip (b : bool) (s : str) :
  tidy b s = true -> tidy b (rstrip s) = true.
Proof.
  revert b. induction s as [|c s IH]; intros b; [reflexivity|].
  rewrite tidy_cons. cbn [rstrip]. destruct (is_az09 c) eqn:E.
  - intros H. apply IH in H. destruct (rstrip s) as [|x xs].
    + destruct (py_isspace c); [reflexivity | simpl; now rewrite E].
    + now rewrite tidy_cons, E.
  - rewrite !andb_true_iff, Z.eqb_eq. intros [[-> Hb] H]. apply IH in H.
    destruct (rstrip s) as [|x xs]; [reflexivity|].
    rewrite tidy_cons, E, Hb, H. reflexivity.
Qed.

Lemma tidy_chars (b : bool) (s : str) :
  tidy b s = true -> Forall (fun c => is_az09 c = true \/ c = 32) s.
Proof.
  revert b. induction s as [|c s IH]; intros b H; constructor.
  - simpl in H. destruct (is_az09 c); [now left|].
    rewrite !andb_true_iff, Z.eqb_eq in H. now right.
  - simpl in H. destruct (is_az09 c); [now apply (IH false)|].
    rewrite !andb_true_iff in H. now apply (IH true).
Qed.

Lemma az09_or_space_ascii (c : Z) :
  is_az09 c = true \/ c = 32 -> is_ascii c /\ ascii_lower c = c.
Proof.
  unfold is_az09, is_ascii, ascii_lower. intros [H | ->].
  - revert H. zcases.
  - simpl. lia.
Qed.

Section Normalize.
Context {F : PyFloats} {U : UnicodeData}.

(** The last two steps of [normalize_text] leave a tidy, trimmed string. *)
Lemma normalize_text_tidy (value : pyval) :
  tidy false (normalize_text value) = true.
Proof.
  assert (H : forall x, tidy false (py_strip (sub_runs not_az09 false x)) = true).
  { intros x. unfold py_strip. apply tidy_rstrip.
    apply (tidy_lstrip false). apply tidy_sub_runs. }
  destruct value; try apply H. reflexivity.
Qed.

Lemma normalize_text_trimmed (value : pyval) :
  py_strip (normalize_text value) = normalize_text value.
Proof.
  destruct value; try apply py_strip_idempotent. reflexivity.
Qed.

Context {L : UnicodeLaws U}.

(** On a tidy string the first three steps of [normalize_text] change
    nothing. *)
Lemma normalize_text_fixed (s : str) :
  tidy false s = true -> py_strip s = s -> normalize_text (PyStr s) = s.
Proof.
  intros Ht Hs. pose proof (tidy_chars _ _ Ht) as Hc.
  assert (Ha : Forall is_ascii s).
  { eapply Forall_impl; [|exact Hc]. intros c H. now apply az09_or_space_ascii. }
  unfold normalize_text, py_str. rewrite (nfd_ascii s Ha).
  assert (Hf : filter (fun ch => negb (category_is_Mn ch)) s = s).
  { clear -Ha L. induction Ha as [|c s Hc _ IH]; simpl; [reflexivity|].
    now rewrite (Mn_ascii c Hc), IH. }
  rewrite Hf, (lower_ascii s Ha).
  assert (Hl : map ascii_lower s = s).
  { clear -Hc. induction Hc as [|c s H _ IH]; simpl; [reflexivity|].
    destruct (az09_or_space_ascii c H) as [_ ->]. now rewrite IH. }
  rewrite Hl, (sub_runs_tidy _ _ Ht). exact Hs.
Qed.

(** C8. [normalize_text] is idempotent: normalising its own result changes
    nothing; its result holds no combining mark (category [Mn]), indeed
    nothing but [a-z], [0-9] and single spaces; and for the capital E with
    grave accent, which the Unicode database decomposes into [E] and the
    combining grave accent U+0300, the result is ["e"]. *)
Theorem normalize_text_idempotent
  (E_grave : nfd (u "È") = [69; 768]) (grave_Mn : category_is_Mn 768 = true) :
  (forall value : pyval,
     normalize_text (PyStr (normalize_text value)) = normalize_text value)
  /\ (forall value : pyval,
        Forall (fun c => category_is_Mn c = false
                         /\ (is_az09 c = true \/ c = 32))
               (normalize_text value))
  /\ normalize_text (PyStr (u "È")) = u "e".
Proof.
  split; [|split].
  - intros value. apply normalize_text_fixed.
    + apply normalize_text_tidy.
    + apply normalize_text_trimmed.
  - intros value.
    eapply Forall_impl; [|exact (tidy_chars _ _ (normalize_text_tidy value))].
    intros c H. split; [|exact H].
    apply Mn_ascii. now apply az09_or_space_ascii.
  - unfold normalize_text, py_str. rewrite E_grave.
    cbn [filter]. rewrite grave_Mn.
    rewrite (Mn_ascii 69) by (unfold is_ascii; lia).
    cbn [negb]. rewrite lower_ascii by (repeat constructor; unfold is_ascii; lia).
    reflexivity.
Qed.

End Normalize.

(** The models meet what the proofs assume of the interfaces. *)
Lemma latin1_laws : UnicodeLaws latin1_unicode.
Proof.
  split.
  - intros s H. cbn [nfd latin1_unicode].
    induction H as [|c s Hc _ IH]; simpl; [reflexivity|]. rewrite IH.
    unfold is_ascii in Hc. unfold latin1_decompose.
    replace ((192 <=? c) && (c <=? 223)) with false by zcases.
    replace (c =? 255) with false by zcases.
    replace ((224 <=? c) && (c <=? 254)) with false by zcases.
    reflexivity.
  - intros c Hc. unfold is_ascii in Hc. cbn [category_is_Mn latin1_unicode]. zcases.
  - intros s H. cbn [str_lower latin1_unicode]. apply map_ext_in.
    intros c Hc. rewrite Forall_forall in H. specialize (H c Hc).
    unfold is_ascii in H. unfold latin1_lower.
    replace ((192 <=? c) && (c <=? 222) && negb (c =? 215)) with false by zcases.
    reflexivity.
Qed.

(** The Latin-1 model meets the assumptions of C8; a name with an accent,
    a double space and punctuation is normalised once and for all. *)
Lemma normalize_text_idempotent_witness :
  @nfd latin1_unicode (u "È") = [69; 768]
  /\ @category_is_Mn latin1_unicode 768 = true
  /\ @normalize_text centi_floats latin1_unicode
       (PyStr (@normalize_text centi_floats latin1_unicode
                 (PyStr (u "Città  di Castello (PG)"))))
     = u "citta di castello pg"
  /\ @normalize_text centi_floats latin1_unicode (PyStr (u "È")) = u "e".
Proof.
  pose proof (@normalize_text_idempotent centi_floats latin1_unicode latin1_laws
                eq_refl eq_refl) as [H1 [_ H3]].
  split; [reflexivity|]. split; [reflexivity|]. split; [|exact H3].
  rewrite H1. reflexivity.
Defined.

(* ===================================================================== *)
(** * The stable descending sort *)
(* ===================================================================== *)

Section Sort.
Variable A : Type.
Implicit Types (x y : Z * A) (l : list (Z * A)).

Lemma insert_desc_perm x l : Permutation (insert_desc x l) (x :: l).
Proof.
  induction l as [|y r IH]; simpl; [reflexivity|].
  destruct (fst x <? fst y); [|reflexivity].
  rewrite IH. apply perm_swap.
Qed.

Lemma sort_desc_perm l : Permutation (sort_desc l) l.
Proof.
  induction l as [|x r IH]; simpl; [reflexivity|].
  rewrite insert_desc_perm. now constructor.
Qed.

Lemma insert_desc_sorted x l :
  StronglySorted (@key_ge A) l -> StronglySorted (@key_ge A) (insert_desc x l).
Proof.
  induction 1 as [|y r Hr IH Hy]; simpl.
  - repeat constructor.
  - destruct (Z.ltb_spec (fst x) (fst y)) as [Hlt | Hge].
    + constructor; [exact IH|].
      eapply Permutation_Forall.
      * symmetry. apply insert_desc_perm.
      * constructor; [unfold key_ge; lia | exact Hy].
    + constructor; [now constructor|].
      constructor; [unfold key_ge; lia|].
      eapply Forall_impl; [|exact Hy]. unfold key_ge. intros z Hz. lia.
Qed.

Lemma sort_desc_sorted l : StronglySorted (@key_ge A) (sort_desc l).
Proof.
  induction l as [|x r IH]; simpl; [constructor | now apply insert_desc_sorted].
Qed.

(** Stability: the pairs of any one key come out in the order they went in. *)
Lemma filter_insert_desc (k : Z) x l :
  filter (has_key k) (insert_desc x l)
  = if has_key k x then x :: filter (has_key k) l else filter (has_key k) l.
Proof.
  induction l as [|y r IH]; [reflexivity|]. simpl.
  destruct (Z.ltb_spec (fst x) (fst y)) as [Hlt | Hge]; [|reflexivity].
  simpl. rewrite IH. unfold has_key.
  destruct (Z.eqb_spec (fst x) k) as [Hx | Hx]; [|reflexivity].
  destruct (Z.eqb_spec (fst y) k) as [Hy | Hy]; [lia | reflexivity].
Qed.

Lemma filter_sort_desc (k : Z) l :
  filter (has_key k) (sort_desc l) = filter (has_key k) l.
Proof.
  induction l as [|x r IH]; [reflexivity|]. simpl.
  rewrite filter_insert_desc, IH. reflexivity.
Qed.

Lemma In_firstn_In (B : Type) (n : nat) (l : list B) (z : B) :
  In z (firstn n l) -> In z l.
Proof.
  intros H. rewrite <- (firstn_skipn n l). apply in_or_app. now left.
Qed.

Lemma StronglySorted_firstn (B : Type) (R : B -> B -> Prop) (n : nat) (l : list B) :
  StronglySorted R l -> StronglySorted R (firstn n l).
Proof.
  revert n. induction l as [|b l IH]; intros [|n] H; simpl; try constructor.
  - apply IH. now inversion H.
  - inversion H as [|? ? _ Hall]; subst.
    rewrite Forall_forall in *. intros z Hz. apply Hall.
    eapply In_firstn_In. exact Hz.
Qed.

End Sort.

(* ===================================================================== *)
(** * The local matcher *)
(* ===================================================================== *)

Lemma tokenize_nonempty (c : Z) (r : str) : c <> 32 -> tokenize (c :: r) <> [].
Proof.
  intros Hc. unfold tokenize. cbn [split_space].
  destruct (Z.eqb_spec c 32) as [|_]; [contradiction|].
  destruct (split_space r); simpl; discriminate.
Qed.

Section Matcher.
Context {F : PyFloats} {U : UnicodeData}.

(** The early return of the matcher is taken exactly when the query has no
    token. *)
Lemma query_tokens_nil (query : str) :
  query_tokens query = []
  <-> nonempty (normalize_text (PyStr (strip_generic_words (PyStr query)))) = false.
Proof.
  unfold query_tokens.
  pose proof (normalize_text_trimmed (PyStr (strip_generic_words (PyStr query)))) as Ht.
  pose proof (py_strip_head (normalize_text (PyStr (strip_generic_words (PyStr query))))) as Hh.
  rewrite Ht in Hh.
  destruct (normalize_text (PyStr (strip_generic_words (PyStr query)))) as [|c r].
  - split; reflexivity.
  - split; [|discriminate]. intros H. exfalso.
    apply (tokenize_nonempty c r); [|exact H].
    intros ->. discriminate.
Qed.

Lemma all_tokens_in_spec (tokens : list str) (name : str) :
  all_tokens_in tokens name = true
  <-> forall token, In token tokens -> exists a b, name = a ++ token ++ b.
Proof.
  unfold all_tokens_in. rewrite forallb_forall.
  split; intros H token Hin; specialize (H token Hin);
    now apply str_contains_spec.
Qed.

(** C1. With at least one query token, [matches] is the input list filtered,
    in input order, by "every token is a substring of the normalised name";
    with no token, both [matches] and [suggestions] are empty. *)
Theorem select_stations_matches (entries : list dict) (query : str) :
  let tokens := query_tokens query in
  let result := select_stations_by_query entries query in
  (tokens <> [] ->
   fst result
   = filter (fun entry => all_tokens_in tokens (entry_name entry)) entries
   /\ forall entry,
        In entry (fst result)
        <-> In entry entries
            /\ forall token, In token tokens ->
                 exists a b, entry_name entry = a ++ token ++ b)
  /\ (tokens = [] -> result = ([], [])).
Proof.
  cbv zeta. unfold select_stations_by_query.
  fold (query_tokens query).
  destruct (nonempty (normalize_text (PyStr (strip_generic_words (PyStr query)))))
    eqn:Hc; cbn [negb].
  - split.
    + intros _.
      assert (Hm : fst (if nonempty (filter (fun entry => all_tokens_in (query_tokens query) (entry_name entry)) entries)
                        then (filter (fun entry => all_tokens_in (query_tokens query) (entry_name entry)) entries, [])
                        else ([], map snd (firstn 5 (sort_desc (score_entries (query_tokens query) entries)))))
                   = filter (fun entry => all_tokens_in (query_tokens query) (entry_name entry)) entries).
      { destruct (filter _ entries); reflexivity. }
      rewrite Hm. split; [reflexivity|].
      intros entry. rewrite filter_In, all_tokens_in_spec. reflexivity.
    + intros Hnil. apply query_tokens_nil in Hnil. congruence.
  - split; [|reflexivity].
    intros Hne. exfalso. apply Hne. now apply query_tokens_nil.
Qed.

End Matcher.

Section Suggestions.
Context {F : PyFloats} {U : UnicodeData}.
Variable tokens : list str.

Let score (entry : dict) : Z := token_score tokens (entry_name entry).
Let positive (entry : dict) : bool := 0 <? score entry.
Let tag (entry : dict) : Z * dict := (score entry, entry).

Lemma score_entries_spec (entries : list dict) :
  score_entries tokens entries = map tag (filter positive entries).
Proof.
  induction entries as [|e r IH]; [reflexivity|]. simpl.
  unfold positive at 1. fold (score e).
  destruct (0 <? score e); simpl; now rewrite IH.
Qed.

Let well_tagged := well_tagged tokens.

Lemma tagged_entries (entries : list dict) :
  Forall well_tagged (map tag (filter positive entries)).
Proof.
  rewrite Forall_forall. intros p Hp. apply in_map_iff in Hp.
  destruct Hp as [e [<- He]]. apply filter_In in He. destruct He as [_ He].
  unfold positive in He. apply Z.ltb_lt in He. now split.
Qed.

Lemma filter_tagged (k : Z) (l : list (Z * dict)) :
  Forall well_tagged l ->
  map snd (filter (has_key k) l)
  = filter (fun entry => score entry =? k) (map snd l).
Proof.
  induction 1 as [|p l [Hp _] _ IH]; [reflexivity|]. simpl.
  change (fst p = score (snd p)) in Hp.
  unfold has_key at 1. rewrite <- Hp.
  destruct (fst p =? k); simpl; now rewrite IH.
Qed.

Lemma sorted_tagged (l : list (Z * dict)) :
  Forall well_tagged l -> StronglySorted (@key_ge dict) l ->
  StronglySorted (fun a b => score a >= score b) (map snd l).
Proof.
  intros Ht Hs. induction Hs as [|p l _ IH Hp]; simpl; [constructor|].
  inversion Ht as [|? ? [Hk _] Hl]; subst.
  change (fst p = score (snd p)) in Hk.
  constructor; [now apply IH|].
  rewrite Forall_forall in *. intros e He. apply in_map_iff in He.
  destruct He as [q [<- Hq]]. specialize (Hp q Hq). unfold key_ge in Hp.
  destruct (Hl q Hq) as [Hkq _]. change (fst q = score (snd q)) in Hkq. lia.
Qed.

Lemma map_snd_tag (l : list dict) : map snd (map tag l) = l.
Proof. rewrite map_map. simpl. apply map_id. Qed.

(** The ranking the fallback computes and its first five entries. *)
Lemma ranking_properties (entries : list dict) :
  let ranked := map snd (sort_desc (score_entries tokens entries)) in
  let suggestions := map snd (firstn 5 (sort_desc (score_entries tokens entries))) in
  suggestions = firstn 5 ranked
  /\ Permutation ranked (filter positive entries)
  /\ StronglySorted (fun a b => score a >= score b) ranked
  /\ (forall k, filter (fun entry => score entry =? k) ranked
                = filter (fun entry => score entry =? k) (filter positive entries)).
Proof.
  cbv zeta. rewrite score_entries_spec.
  pose proof (tagged_entries entries) as Ht.
  assert (Hs : Forall well_tagged (sort_desc (map tag (filter positive entries)))).
  { eapply Permutation_Forall; [symmetry; apply sort_desc_perm | exact Ht]. }
  split; [symmetry; apply firstn_map|]. split; [|split].
  - rewrite <- (map_snd_tag (filter positive entries)) at 2.
    apply Permutation_map, sort_desc_perm.
  - apply sorted_tagged; [exact Hs | apply sort_desc_sorted].
  - intros k. rewrite <- (filter_tagged k _ Hs), filter_sort_desc.
    rewrite (filter_tagged k _ Ht), map_snd_tag. reflexivity.
Qed.

End Suggestions.

Section Ranking.
Context {F : PyFloats} {U : UnicodeData}.

Lemma filter_none (B : Type) (p : B -> bool) (l : list B) :
  (forall x, In x l -> p x = false) -> filter p l = [].
Proof.
  induction l as [|x l IH]; intros H; [reflexivity|]. simpl.
  rewrite (H x (or_introl eq_refl)). apply IH.
  intros y Hy. apply H. now right.
Qed.

Lemma filter_firstn_prefix (B : Type) (p : B -> bool) (n : nat) (l : list B) :
  exists rest, filter p l = filter p (firstn n l) ++ rest.
Proof.
  exists (filter p (skipn n l)).
  rewrite <- filter_app, firstn_skipn. reflexivity.
Qed.

Lemma filter_filter_positive (tokens : list str) (k : Z) (entries : list dict) :
  0 < k ->
  filter (fun entry => token_score tokens (entry_name entry) =? k)
         (filter (fun entry => 0 <? token_score tokens (entry_name entry)) entries)
  = filter (fun entry => token_score tokens (entry_name entry) =? k) entries.
Proof.
  intros Hk. induction entries as [|e r IH]; [reflexivity|]. simpl.
  destruct (Z.ltb_spec 0 (token_score tokens (entry_name e))) as [Hp | Hp]; simpl.
  - now rewrite IH.
  - rewrite IH. destruct (Z.eqb_spec (token_score tokens (entry_name e)) k); [lia | reflexivity].
Qed.

(** C2. [suggestions] holds at most five entries, each with a positive
    token-overlap score; it is sorted by that score in descending order; and
    the sort is stable: for every score [k], the suggestions of score [k] are
    an initial segment of the input entries of score [k], in input order.
    When the query has a token and no entry matches exactly, [suggestions]
    is the first five of a ranking that permutes the entries of positive
    score, is sorted by descending score and keeps the input order of equal
    scores. *)
Theorem suggestions_ranked (entries : list dict) (query : str) :
  let score := entry_score query in
  let result := select_stations_by_query entries query in
  let suggestions := snd result in
  (List.length suggestions <= 5)%nat
  /\ Forall (fun entry => 0 < score entry) suggestions
  /\ StronglySorted (fun a b => score a >= score b) suggestions
  /\ (forall k, exists rest,
        filter (fun entry => score entry =? k) entries
        = filter (fun entry => score entry =? k) suggestions ++ rest)
  /\ (query_tokens query <> [] -> fst result = [] ->
      exists ranked,
        suggestions = firstn 5 ranked
        /\ Permutation ranked (filter (fun entry => 0 <? score entry) entries)
        /\ StronglySorted (fun a b => score a >= score b) ranked
        /\ forall k, 0 < k ->
             filter (fun entry => score entry =? k) ranked
             = filter (fun entry => score entry =? k) entries).
Proof.
  cbv zeta.
  assert (Hnil :
    (0 <= 5)%nat
    /\ Forall (fun entry => 0 < entry_score query entry) []
    /\ StronglySorted (fun a b => entry_score query a >= entry_score query b) []
    /\ (forall k, exists rest,
          filter (fun entry => entry_score query entry =? k) entries
          = filter (fun entry => entry_score query entry =? k) [] ++ rest)).
  { split; [lia|]. split; [constructor|]. split; [constructor|].
    intros k. now eexists. }
  unfold select_stations_by_query. fold (query_tokens query).
  destruct (nonempty (normalize_text (PyStr (strip_generic_words (PyStr query)))))
    eqn:Hc; cbn [negb].
  2:{ cbn [fst snd List.length].
      destruct Hnil as (H1 & H2 & H3 & H4). repeat (split; [assumption|]).
      intros Hne _. exfalso. apply Hne. now apply query_tokens_nil. }
  destruct (filter (fun entry => all_tokens_in (query_tokens query) (entry_name entry)) entries)
    as [|m ms] eqn:Hm; cbn [nonempty fst snd].
  2:{ cbn [List.length].
      destruct Hnil as (H1 & H2 & H3 & H4). repeat (split; [assumption|]).
      intros _ H. discriminate. }
  destruct (ranking_properties (query_tokens query) entries)
    as (Hfirst & Hperm & Hsorted & Hstable).
  set (ranked := map snd (sort_desc (score_entries (query_tokens query) entries))) in *.
  set (suggestions := map snd (firstn 5 (sort_desc (score_entries (query_tokens query) entries)))) in *.
  assert (Hpos : Forall (fun entry => 0 < entry_score query entry) ranked).
  { eapply Permutation_Forall; [symmetry; exact Hperm|].
    rewrite Forall_forall. intros e He. apply filter_In in He.
    destruct He as [_ He]. now apply Z.ltb_lt in He. }
  assert (Hsub : forall e, In e suggestions -> In e ranked).
  { intros e. rewrite Hfirst. apply In_firstn_In. }
  split; [|split; [|split; [|split]]].
  - rewrite Hfirst. rewrite length_firstn. apply Nat.le_min_l.
  - rewrite Forall_forall in *. intros e He. apply Hpos, Hsub, He.
  - rewrite Hfirst. apply StronglySorted_firstn. exact Hsorted.
  - intros k. destruct (Z.ltb_spec 0 k) as [Hk | Hk].
    + unfold entry_score.
      rewrite <- (filter_filter_positive (query_tokens query) k entries Hk).
      rewrite <- Hstable, Hfirst. apply filter_firstn_prefix.
    + exists (filter (fun entry => entry_score query entry =? k) entries).
      replace (filter (fun entry => entry_score query entry =? k) suggestions)
        with (@nil dict); [reflexivity|].
      symmetry. apply filter_none. intros e He.
      apply Z.eqb_neq. rewrite Forall_forall in Hpos.
      specialize (Hpos e (Hsub e He)). lia.
  - intros _ _. exists ranked. repeat split; try assumption.
    intros k Hk. rewrite Hstable.
    apply (filter_filter_positive (query_tokens query) k entries Hk).
Qed.

End Ranking.

(** The matcher on the Latin-1 model: a generic word in a name does not
    hinder the match, one token out of two gives a suggestion, and a ranking
    of seven entries is cut to five, the higher score first and equal scores
    in input order. *)
Example match_secchia :
  @select_stations_by_query centi_floats latin1_unicode
    [station "Fiume Secchia a Lama"] (u "secchia")
  = ([station "Fiume Secchia a Lama"], []).
Proof. reflexivity. Qed.

Example suggest_cesena :
  @select_stations_by_query centi_floats latin1_unicode
    [station "Torrente Savio a Cesena"; station "Fiume Reno a Bastia"]
    (u "cesena marina")
  = ([], [station "Torrente Savio a Cesena"]).
Proof. reflexivity. Qed.

Example suggest_top_five :
  @select_stations_by_query centi_floats latin1_unicode
    [station "Po a Piacenza"; station "Reno a Bastia"; station "Savio";
     station "Po di Goro"; station "Reno e Po"; station "Canale Reno";
     station "Po a Pontelagoscuro"; station "Reno a Casalecchio"]
    (u "fiume Po, Reno (foce)")
  = ([],
     [station "Reno e Po"; station "Po a Piacenza"; station "Reno a Bastia";
      station "Po di Goro"; station "Canale Reno"]).
Proof. reflexivity. Qed.

Example no_token_no_result :
  @select_stations_by_query centi_floats latin1_unicode
    [station "Fiume Secchia a Lama"] (u " Fiume, torrente! ")
  = ([], []).
Proof. reflexivity. Qed.

(* ===================================================================== *)
(** * The orchestrator *)
(* ===================================================================== *)

Lemma nonempty_false (A : Type) (l : list A) : nonempty l = false <-> l = [].
Proof. destruct l; simpl; split; congruence. Qed.

Lemma nonempty_true (A : Type) (l : list A) : nonempty l = true <-> l <> [].
Proof. destruct l; simpl; split; congruence. Qed.


Section Orchestrator.
Context {F : PyFloats} {U : UnicodeData} {J : JsonLib} {W : World}.

Lemma retrieval_disabled :
  env_set (u "OPENAI_API_KEY") = false
  \/ env_set (u "OPENAI_VECTOR_STORE_ID") = false
  <-> _is_retrieval_enabled = false.
Proof. unfold _is_retrieval_enabled. now rewrite andb_false_iff. Qed.

(** The three ways the orchestrator ends, by what the retrieval did. *)
Lemma orchestrator_cases
  (entries : list dict) (query : str) (max_results : Z) (log : list Request) :
  let local := select_stations_by_query entries query in
  let run := select_stations_by_query_with_retrieval entries query max_results log in
  let picked names :=
    filter (fun entry =>
              in_names (entry_name entry)
                       (map (fun name => normalize_text (PyStr name)) names))
           entries in
  (nonempty (fst local) || negb _is_retrieval_enabled = true /\ run = (Ok local, log))
  \/ (nonempty (fst local) || negb _is_retrieval_enabled = false
      /\ match _retrieve_station_names query max_results log with
         | (Raise e, log') => run = (Ok local, log')
         | (Ok names, log') =>
             if nonempty names && nonempty (picked names)
             then run = (Ok (picked names, []), log')
             else run = (Ok local, log')
         end).
Proof.
  cbv zeta. unfold select_stations_by_query_with_retrieval.
  destruct (nonempty (fst (select_stations_by_query entries query))
            || negb _is_retrieval_enabled) eqn:Hgate.
  - left. now split.
  - right. split; [reflexivity|].
    unfold mbind, try_except, mret.
    destruct (_retrieve_station_names query max_results log) as [[names | e] log'];
      [|reflexivity].
    destruct (nonempty names); cbn [negb andb]; [|reflexivity].
    destruct (nonempty (filter _ entries)); reflexivity.
Qed.

(** C3. The orchestrator returns the local result unchanged, without sending
    any request, whenever the local [matches] is not empty or either secret
    is absent; and its result is always either the local result or, with
    local [matches] empty and retrieval configured, a non-empty [matches]
    selected by the retrieved names, with empty [suggestions]. *)
Theorem orchestrator_keeps_local
  (entries : list dict) (query : str) (max_results : Z) (log : list Request) :
  let local := select_stations_by_query entries query in
  let run := select_stations_by_query_with_retrieval entries query max_results log in
  (fst local <> []
   \/ env_set (u "OPENAI_API_KEY") = false
   \/ env_set (u "OPENAI_VECTOR_STORE_ID") = false ->
   run = (Ok local, log))
  /\ exists result,
       fst run = Ok result
       /\ (result = local
           \/ (fst local = [] /\ _is_retrieval_enabled = true
               /\ fst result <> [] /\ snd result = []
               /\ exists names log',
                    _retrieve_station_names query max_results log = (Ok names, log')
                    /\ names <> []
                    /\ fst result
                       = filter (fun entry =>
                                   in_names (entry_name entry)
                                     (map (fun name => normalize_text (PyStr name)) names))
                                entries)).
Proof.
  cbv zeta.
  destruct (orchestrator_cases entries query max_results log) as [[Hgate Hrun] | [Hgate Hrun]].
  - rewrite Hrun. split; [reflexivity|]. eexists. split; [reflexivity | now left].
  - apply orb_false_iff in Hgate. destruct Hgate as [Hlocal Henabled].
    apply nonempty_false in Hlocal. apply negb_false_iff in Henabled.
    split.
    + intros [H | H]; [contradiction|].
      apply retrieval_disabled in H. congruence.
    + destruct (_retrieve_station_names query max_results log) as [[names | e] log'] eqn:Hret.
      * destruct (nonempty names) eqn:Hn; cbn [andb] in Hrun.
        -- destruct (nonempty (filter _ entries)) eqn:Hp in Hrun.
           ++ rewrite Hrun. eexists. split; [reflexivity|]. right.
              cbn [fst snd]. repeat split; try assumption.
              ** now apply nonempty_true.
              ** exists names, log'. repeat split. now apply nonempty_true.
           ++ rewrite Hrun. eexists. split; [reflexivity | now left].
        -- rewrite Hrun. eexists. split; [reflexivity | now left].
      * rewrite Hrun. eexists. split; [reflexivity | now left].
Qed.





End Orchestrator.


(** The orchestrator over the same three networks: the local result. *)
Example orchestrator_absorbs :
  let entries := [station "Torrente Savio a Cesena"; station "Fiume Reno a Bastia"] in
  forall net, In net [unreachable; unauthorized; answering (u "<html>")] ->
    fst (@select_stations_by_query_with_retrieval centi_floats latin1_unicode
           model_json (make_world secrets net) entries (u "cesena marina") 5 [])
    = Ok ([], [station "Torrente Savio a Cesena"]).
Proof.
  intros entries net [<- | [<- | [<- | []]]]; reflexivity.
Qed.

(** The three outcomes on model networks: an output text that is not an
    array is absorbed in the component, an answer of unexpected shape and a
    status other than 200 are not. *)
Example component_absorbs_text :
  fst (@_retrieve_station_names centi_floats latin1_unicode model_json
         (make_world secrets (answering (completion_body (u "no station found"))))
         (u "zzz") 5 [])
  = Ok []
  /\ fst (@_retrieve_station_names centi_floats latin1_unicode model_json
            (make_world secrets (answering (u "[1]"))) (u "zzz") 5 [])
     = Raise AttributeError
  /\ fst (@_retrieve_station_names centi_floats latin1_unicode model_json
            (make_world secrets
               (fun _ _ => Ok {| resp_status := 204; resp_body := Ok [] |}))
            (u "zzz") 5 [])
     = Raise (RuntimeError (u "OpenAI request failed (204): no body")).
Proof. repeat split. Qed.

(* ===================================================================== *)
(** * The array parser *)
(* ===================================================================== *)

Lemma upto_last_none (c : Z) (s : str) : upto_last c s = None <-> ~ In c s.
Proof.
  induction s as [|x r IH]; simpl; [tauto|].
  destruct (upto_last c r) as [p|].
  - split; [discriminate|]. intros H. exfalso.
    assert (Hr : ~ In c r) by tauto. apply IH in Hr. discriminate.
  - destruct (Z.eqb_spec x c) as [-> | Hx].
    + split; [discriminate | tauto].
    + split; [|reflexivity]. intros _ [H | H]; [congruence|].
      now apply (proj1 IH).
Qed.

Lemma upto_last_app (c : Z) (body b : str) :
  ~ In c b -> upto_last c (body ++ c :: b) = Some (body ++ [c]).
Proof.
  intros Hb. induction body as [|x body IH]; simpl.
  - rewrite (proj2 (upto_last_none c b) Hb), Z.eqb_refl. reflexivity.
  - now rewrite IH.
Qed.

Lemma upto_last_some (c : Z) (s p : str) :
  upto_last c s = Some p ->
  exists body b, s = body ++ c :: b /\ p = body ++ [c] /\ ~ In c b.
Proof.
  revert p. induction s as [|x r IH]; intros p; simpl; [discriminate|].
  destruct (upto_last c r) as [q|] eqn:E.
  - intros [= <-]. destruct (IH q eq_refl) as (body & b & -> & -> & Hb).
    now exists (x :: body), b.
  - destruct (Z.eqb_spec x c) as [-> | _]; [|discriminate].
    intros [= <-]. exists [], r. repeat split. now apply upto_last_none.
Qed.

(** The bracketed group runs from the first [[] to the last []] after it. *)
Lemma search_brackets_app (a body b : str) :
  ~ In 91 a -> ~ In 93 b ->
  search_brackets (a ++ [91] ++ body ++ [93] ++ b) = Some ([91] ++ body ++ [93]).
Proof.
  intros Ha Hb. induction a as [|x a IH]; simpl.
  - now rewrite upto_last_app.
  - destruct (Z.eqb_spec x 91) as [-> | _].
    + exfalso. apply Ha. now left.
    + apply IH. intros H. apply Ha. now right.
Qed.

Lemma search_brackets_some (s g : str) :
  search_brackets s = Some g ->
  exists a body b,
    s = a ++ [91] ++ body ++ [93] ++ b /\ g = [91] ++ body ++ [93]
    /\ ~ In 91 a /\ ~ In 93 b.
Proof.
  induction s as [|x r IH]; simpl; [discriminate|].
  destruct (Z.eqb_spec x 91) as [-> | Hx].
  - destruct (upto_last 93 r) as [p|] eqn:E; [|discriminate].
    intros [= <-]. destruct (upto_last_some 93 r p E) as (body & b & -> & -> & Hb).
    exists [], body, b. repeat split; [tauto | exact Hb].
  - intros H. destruct (IH H) as (a & body & b & -> & -> & Ha & Hb).
    exists (x :: a), body, b. repeat split; [|exact Hb].
    intros [H' | H']; [congruence | contradiction].
Qed.

Section Parser.
Context {F : PyFloats} {J : JsonLib}.

(** What [_parse_json_array] raises: never a [JSONDecodeError], and what
    one of its two calls of [json.loads] raised. *)
Lemma parse_json_array_raises (text : str) (e : exn) :
  _parse_json_array text = Raise e ->
  e <> JSONDecodeError
  /\ text <> []
  /\ (json_loads text = Raise e
      \/ (json_loads text = Raise JSONDecodeError
          /\ exists group0,
               search_brackets text = Some group0
               /\ json_loads group0 = Raise e)).
Proof.
  unfold _parse_json_array. destruct text as [|c r]; [discriminate|].
  cbn [nonempty negb].
  destruct (json_loads (c :: r)) as [parsed | e1]; [discriminate|].
  destruct e1;
    try (intros [= <-]; split; [discriminate|]; split; [discriminate | now left]).
  destruct (search_brackets (c :: r)) as [g|]; [|discriminate].
  destruct (json_loads g) as [parsed | e2] eqn:Hg; [discriminate|].
  destruct e2; try discriminate;
    (intros [= <-]; split; [discriminate|]; split; [discriminate|];
     right; split; [reflexivity|]; exists g; now split).
Qed.

(** An exception of [json.loads] other than [JSONDecodeError] goes through
    both handlers. *)
Lemma parse_json_array_passes (text : str) (e : exn) :
  e <> JSONDecodeError -> text <> [] ->
  json_loads text = Raise e
  \/ (json_loads text = Raise JSONDecodeError
      /\ exists group0,
           search_brackets text = Some group0 /\ json_loads group0 = Raise e) ->
  _parse_json_array text = Raise e.
Proof.
  intros He Htext H. unfold _parse_json_array.
  apply nonempty_true in Htext. rewrite Htext. cbn [negb].
  destruct H as [-> | [-> (g & -> & ->)]]; destruct e; congruence.
Qed.

(** After a decode error on the whole text: the bracketed group decides. *)
Lemma parse_json_array_group (text : str) :
  json_loads text = Raise JSONDecodeError ->
  _parse_json_array text
  = match search_brackets text with
    | Some group0 =>
        match json_loads group0 with
        | Ok parsed => Ok (list_or_empty parsed)
        | Raise JSONDecodeError => Ok []
        | Raise e => Raise e
        end
    | None => Ok []
    end.
Proof.
  intros He. unfold _parse_json_array.
  destruct text as [|c r]; [reflexivity|]. cbn [nonempty negb]. now rewrite He.
Qed.

(** C5, as the code has it. [_parse_json_array] never lets a
    [JSONDecodeError] out, and it raises exactly when one of its two calls
    of [json.loads] raises something else, which it passes on; where
    [json.loads] fails with decode errors only, it returns.  A text that
    parses as JSON gives the parsed list, or nothing when the value is not a
    list; a text that does not parse is searched for the group from its
    first [[] to the last []] after it, and that group is parsed the same
    way; no group, or a group that does not parse, gives the empty list.  In
    the scenario, where the whole text is rejected and the group parses to
    the two names, the result is the two names. *)
Theorem parse_json_array_total
  (text_rejected : json_loads scenario_text = Raise JSONDecodeError)
  (group_parsed :
     json_loads scenario_group
     = Ok (PyList [PyStr (u "Stazione A"); PyStr (u "Stazione B")])) :
  (forall text, _parse_json_array text <> Raise JSONDecodeError)
  /\ (forall text e,
        _parse_json_array text = Raise e
        <-> e <> JSONDecodeError /\ text <> []
            /\ (json_loads text = Raise e
                \/ (json_loads text = Raise JSONDecodeError
                    /\ exists group0,
                         search_brackets text = Some group0
                         /\ json_loads group0 = Raise e)))
  /\ (forall text,
        (forall s e,
           s = text \/ search_brackets text = Some s ->
           json_loads s = Raise e -> e = JSONDecodeError) ->
        exists items, _parse_json_array text = Ok items)
  /\ (forall text parsed,
        text <> [] -> json_loads text = Ok parsed ->
        _parse_json_array text = Ok (list_or_empty parsed))
  /\ (forall text,
        json_loads text = Raise JSONDecodeError ->
        _parse_json_array text
        = match search_brackets text with
          | Some group0 =>
              match json_loads group0 with
              | Ok parsed => Ok (list_or_empty parsed)
              | Raise JSONDecodeError => Ok []
              | Raise e => Raise e
              end
          | None => Ok []
          end)
  /\ (forall a body b,
        ~ In 91 a -> ~ In 93 b ->
        search_brackets (a ++ [91] ++ body ++ [93] ++ b)
        = Some ([91] ++ body ++ [93]))
  /\ (forall text group0,
        search_brackets text = Some group0 ->
        exists a body b,
          text = a ++ [91] ++ body ++ [93] ++ b /\ group0 = [91] ++ body ++ [93]
          /\ ~ In 91 a /\ ~ In 93 b)
  /\ _parse_json_array scenario_text
     = Ok [PyStr (u "Stazione A"); PyStr (u "Stazione B")].
Proof.
  split; [|split; [|split; [|split; [|split; [|split; [|split]]]]]].
  - intros text H. now destruct (parse_json_array_raises text _ H).
  - intros text e. split.
    + apply parse_json_array_raises.
    + intros (He & Htext & H). now apply parse_json_array_passes.
  - intros text Hdecode.
    destruct (_parse_json_array text) as [items | e] eqn:E; [now exists items|].
    exfalso. destruct (parse_json_array_raises text e E) as (He & _ & H).
    destruct H as [H | [_ (g & Hg & H)]]; apply He.
    + exact (Hdecode text e (or_introl eq_refl) H).
    + exact (Hdecode g e (or_intror Hg) H).
  - intros text parsed Hne Hp. unfold _parse_json_array.
    apply nonempty_true in Hne. now rewrite Hne, Hp.
  - exact parse_json_array_group.
  - exact search_brackets_app.
  - exact search_brackets_some.
  - rewrite (parse_json_array_group _ text_rejected).
    replace (search_brackets scenario_text) with (Some scenario_group) by reflexivity.
    now rewrite group_parsed.
Qed.

End Parser.

(** Nested brackets are fine, and a value that is not a list gives
    nothing. *)
Example nested_group :
  @_parse_json_array centi_floats model_json (u "x [1, [2]] y")
  = Ok [PyInt 1; PyList [PyInt 2]]
  /\ @_parse_json_array centi_floats model_json (u "{}") = Ok []
  /\ @_parse_json_array centi_floats model_json (u "[1, 2.5, null]")
     = Ok [PyInt 1; @PyFloat centi_floats 250; PyNone].
Proof. repeat split. Qed.

(** The JSON reader of the models rejects the scenario text and reads its
    bracketed group, so the scenario runs as C5 says. *)
Lemma parse_json_array_total_witness :
  @json_loads centi_floats model_json scenario_text = Raise JSONDecodeError
  /\ @json_loads centi_floats model_json scenario_group
     = Ok (PyList [PyStr (u "Stazione A"); PyStr (u "Stazione B")])
  /\ @_parse_json_array centi_floats model_json scenario_text
     = Ok [PyStr (u "Stazione A"); PyStr (u "Stazione B")].
Proof.
  split; [reflexivity|]. split; [reflexivity|].
  exact (proj2 (proj2 (proj2 (proj2 (proj2 (proj2 (proj2
    (@parse_json_array_total centi_floats model_json eq_refl eq_refl)))))))).
Defined.

(** C5, as the claim states it, fails twice.  It does raise: an array
    holding an integer of 4301 digits makes [json.loads] raise the
    [ValueError] of the interpreter's limit on integer conversion, which
    neither handler catches, on the strict parse as on the bracketed group.
    And the group is not the first bracketed substring: with two arrays in
    the text it runs from the first [[] to the last []], does not parse, and
    the result is empty, where the first bracketed substring, [[1]], would
    have given one item. *)
Lemma parse_json_array_digit_limit :
  @_parse_json_array centi_floats model_json (u "[" ++ repeat 49 4301%nat ++ u "]")
  = Raise (ValueError (digit_limit_message 4301))
  /\ @_parse_json_array centi_floats model_json
       (u "names: [" ++ repeat 49 4301%nat ++ u "]")
     = Raise (ValueError (digit_limit_message 4301))
  /\ ~ (forall text,
          exists items,
            @_parse_json_array centi_floats model_json text = Ok items)
  /\ search_brackets (u "x [1] y [2]") = Some (u "[1] y [2]")
  /\ @_parse_json_array centi_floats model_json (u "[1]") = Ok [PyInt 1]
  /\ @_parse_json_array centi_floats model_json (u "x [1] y [2]") = Ok [].
Proof.
  assert (H : @_parse_json_array centi_floats model_json
                (u "[" ++ repeat 49 4301%nat ++ u "]")
              = Raise (ValueError (digit_limit_message 4301)))
    by reflexivity.
  split; [exact H|]. split; [reflexivity|].
  split; [|repeat split].
  intros Hall. destruct (Hall (u "[" ++ repeat 49 4301%nat ++ u "]")) as [items Hi].
  rewrite H in Hi. discriminate Hi.
Qed.

(* ===================================================================== *)
(** * The candidate names *)
(* ===================================================================== *)

Lemma digit_not_space (c : Z) : 45 <= c <= 57 -> py_isspace c = false.
Proof. intros H. unfold py_isspace. zdecide. reflexivity. Qed.

Lemma digits_fuel_head (fuel : nat) (n : Z) (acc : str) :
  (fuel <> O \/ exists c r, acc = c :: r /\ 48 <= c <= 57) ->
  exists c r, digits_fuel fuel n acc = c :: r /\ 48 <= c <= 57.
Proof.
  revert n acc. induction fuel as [|f IH]; intros n acc H; simpl.
  - destruct H as [H | H]; [congruence | exact H].
  - assert (Hd : 48 <= 48 + n mod 10 <= 57).
    { pose proof (Z.mod_pos_bound n 10). lia. }
    destruct (n <? 10).
    + now exists (48 + n mod 10), acc.
    + apply IH. right. now exists (48 + n mod 10), acc.
Qed.

Lemma str_of_int_head (z : Z) :
  exists c r, str_of_int z = c :: r /\ 45 <= c <= 57.
Proof.
  unfold str_of_int. destruct (z <? 0).
  - eexists _, _. split; [reflexivity | lia].
  - destruct (digits_fuel_head (S (Z.to_nat (Z.log2 z))) z [])
      as (c & r & -> & Hc); [now left|].
    exists c, r. split; [reflexivity | lia].
Qed.

Lemma py_strip_str_of_int (z : Z) : py_strip (str_of_int z) <> [].
Proof.
  destruct (str_of_int_head z) as (c & r & -> & Hc).
  apply py_strip_nonblank. now apply digit_not_space.
Qed.

Lemma slice_to_firstn (A : Type) (n : Z) (l : list A) :
  0 <= n -> slice_to n l = firstn (Z.to_nat n) l.
Proof.
  intros H. unfold slice_to. destruct (Z.ltb_spec n 0); [lia | reflexivity].
Qed.

Section Candidates.
Context {F : PyFloats} {U : UnicodeData} {J : JsonLib} {W : World}.

Lemma candidate_names_filter_map (items : list pyval) :
  candidate_names items
  = filter (@nonempty Z) (map (fun item => py_strip (py_str item)) items).
Proof.
  unfold candidate_names. induction items as [|x r IH]; [reflexivity|]. simpl.
  destruct (nonempty (py_strip (py_str x))); simpl; now rewrite IH.
Qed.

Context {FL : FloatLaws F}.

(** Anything but a string prints as text that is not blank. *)
Lemma non_string_nonblank (item : pyval) :
  (forall s, item <> PyStr s) -> py_strip (py_str item) <> [].
Proof.
  intros Hs. destruct item as [| [|] | z | x | s | l | d]; cbn [py_str py_repr].
  - now apply py_strip_nonblank.
  - now apply py_strip_nonblank.
  - now apply py_strip_nonblank.
  - apply py_strip_str_of_int.
  - apply float_repr_nonblank.
  - exfalso. now apply (Hs s).
  - now apply py_strip_nonblank.
  - now apply py_strip_nonblank.
Qed.

(** C10. With retrieval configured, a response whose output text parses to
    the array [items] makes [_retrieve_station_names] return the items each
    printed by [str] and trimmed, those that are empty after trimming left
    out, cut by [[:max_results]], which for a bound that is not negative is
    the first [max_results] of them.  An item that is not a string (a number,
    a boolean, [None], a list, an object) is never empty after trimming, so
    its printed form is among the candidate names. *)
Theorem retrieved_names_from_array
  (query : str) (max_results : Z) (log log' : list Request)
  (response : pyval) (output_text : str) (items : list pyval) :
  _is_retrieval_enabled = true ->
  _openai_create_response (retrieval_payload query max_results) log
  = (Ok response, log') ->
  _extract_output_text response = Ok output_text ->
  _parse_json_array output_text = Ok items ->
  _retrieve_station_names query max_results log
  = (Ok (slice_to max_results (candidate_names items)), log')
  /\ candidate_names items
     = filter (@nonempty Z) (map (fun item => py_strip (py_str item)) items)
  /\ (0 <= max_results ->
      slice_to max_results (candidate_names items)
      = firstn (Z.to_nat max_results) (candidate_names items))
  /\ (forall item,
        In item items -> (forall s, item <> PyStr s) ->
        py_strip (py_str item) <> []
        /\ In (py_strip (py_str item)) (candidate_names items)).
Proof.
  intros Hen Hresp Htext Hitems. split; [|split; [|split]].
  - unfold _retrieve_station_names. rewrite Hen. cbn [negb].
    unfold mbind at 1 2 3. rewrite Hresp. unfold lift, mbind.
    rewrite Htext, Hitems. reflexivity.
  - apply candidate_names_filter_map.
  - apply slice_to_firstn.
  - intros item Hin Hs. pose proof (non_string_nonblank item Hs) as Hnb.
    split; [exact Hnb|]. rewrite candidate_names_filter_map.
    apply filter_In. split.
    + apply in_map_iff. now exists item.
    + now apply nonempty_true.
Qed.

End Candidates.

Lemma centi_float_laws : FloatLaws centi_floats.
Proof.
  split. intros x. cbn [float_repr centi_floats]. unfold centi_repr, centi_sign.
  destruct (x <? 0); cbn [app].
  - now apply py_strip_nonblank.
  - destruct (str_of_int_head (Z.abs x / 100)) as (c & r & -> & Hc).
    cbn [app]. apply py_strip_nonblank. now apply digit_not_space.
Qed.

(** A run of C10: the number, the boolean and the object are kept as text,
    the blank string is dropped, and the one request sent is logged. *)
Lemma retrieved_names_from_array_witness :
  @_retrieve_station_names centi_floats latin1_unicode model_json mixed_world
    (u "zzz") 5 []
  = (Ok [u "Secchia"; u "12"; u "True"; u "{}"],
     [{| req_url := u "https://api.openai.com/v1/responses";
         req_data := Some (@json_dumps centi_floats model_json
                             (@retrieval_payload centi_floats mixed_world (u "zzz") 5));
         req_headers := [(u "Authorization", u "Bearer sk-test");
                         (u "Content-Type", u "application/json")];
         req_method := u "POST" |}]).
Proof.
  pose proof (@retrieved_names_from_array centi_floats latin1_unicode model_json
                mixed_world centi_float_laws (u "zzz") 5 [] _ _ _ _
                eq_refl eq_refl eq_refl eq_refl) as [H _].
  exact H.
Defined.

(* ===================================================================== *)
(** * The query timestamp *)
(* ===================================================================== *)

Lemma shift_half_hour (dt : datetime) (k : Z) :
  on_half_hour dt -> k = -3600 \/ k = 1800 ->
  on_half_hour (shift dt k)
  /\ (k = -3600 -> ordinal dt - 1 <= ordinal (shift dt k) <= ordinal dt)
  /\ (k = 1800 -> ordinal dt <= ordinal (shift dt k) <= ordinal dt + 1).
Proof.
  intros (Hh & Hm & Hs & Hu) Hk. unfold on_half_hour, shift. cbn [hour minute second microsecond ordinal].
  rewrite Hs. 
  destruct Hm as [-> | ->]; destruct Hk as [-> | ->];
    repeat split; try assumption; try (intros; discriminate); intros;
    Z.div_mod_to_equations; lia.
Qed.

Lemma round_half_hour_spec (now : datetime) :
  valid_time now -> on_half_hour (round_half_hour now).
Proof.
  intros (Hh & _). unfold on_half_hour, round_half_hour, replace_minute.
  cbn [hour minute second microsecond].
  repeat split; try lia. destruct (minute now <? 31); [now left | now right].
Qed.

Lemma wall_seconds_shift (dt : datetime) (k : Z) :
  wall_seconds (shift dt k) = wall_seconds dt + k.
Proof.
  unfold wall_seconds, day_seconds, shift.
  cbn [ordinal hour minute second microsecond].
  Z.div_mod_to_equations; lia.
Qed.

Lemma round_half_hour_wall (now : datetime) :
  valid_time now ->
  0 <= wall_seconds now - wall_seconds (round_half_hour now) < 1860
  /\ (minute now <> 30 ->
      wall_seconds now - wall_seconds (round_half_hour now) < 1800)
  /\ wall_seconds (round_half_hour now) mod 1800 = 0.
Proof.
  intros (Hh & Hm & Hs & Hu).
  unfold wall_seconds, day_seconds, round_half_hour, replace_minute.
  cbn [ordinal hour minute second microsecond].
  destruct (Z.ltb_spec (minute now) 31); repeat split; intros;
    try (Z.div_mod_to_equations; lia).
Qed.

Section Clock.
Context {C : LocalClock}.

(** The run of [get_timestamp_ms] away from the first and the last day of
    the calendar: no overflow, and the two wall-clock steps. *)
Lemma get_timestamp_ms_run :
  valid_time datetime_now -> 1 < ordinal datetime_now < _MAXORDINAL ->
  let rounded := round_half_hour datetime_now in
  let adjusted := if is_dst rounded then shift rounded (-3600) else rounded in
  get_timestamp_ms = Ok (timestamp_ms (shift adjusted 1800))
  /\ on_half_hour (shift adjusted 1800).
Proof.
  intros Hv Hr. cbv zeta. unfold get_timestamp_ms.
  pose proof (round_half_hour_spec datetime_now Hv) as Hround.
  assert (Hord : ordinal (round_half_hour datetime_now) = ordinal datetime_now)
    by reflexivity.
  set (rounded := round_half_hour datetime_now) in *.
  unfold _MAXORDINAL in Hr.
  assert (Hadj :
    (if is_dst rounded then datetime_add rounded (-3600) else Ok rounded)
    = Ok (if is_dst rounded then shift rounded (-3600) else rounded)
    /\ on_half_hour (if is_dst rounded then shift rounded (-3600) else rounded)
    /\ ordinal datetime_now - 1
       <= ordinal (if is_dst rounded then shift rounded (-3600) else rounded)
       <= ordinal datetime_now).
  { destruct (is_dst rounded).
    - destruct (shift_half_hour rounded (-3600) Hround (or_introl eq_refl))
        as (Hon & Hlo & _). specialize (Hlo eq_refl).
      unfold datetime_add, _MAXORDINAL.
      replace (0 <? ordinal (shift rounded (-3600))) with true
        by (symmetry; apply Z.ltb_lt; lia).
      replace (ordinal (shift rounded (-3600)) <=? 3652059) with true
        by (symmetry; apply Z.leb_le; lia).
      split; [reflexivity|]. split; [exact Hon | lia].
    - split; [reflexivity|]. split; [exact Hround | lia]. }
  destruct Hadj as (-> & Hon & Hlo). cbn [rbind].
  set (adjusted := if is_dst rounded then shift rounded (-3600) else rounded) in *.
  destruct (shift_half_hour adjusted 1800 Hon (or_intror eq_refl))
    as (Hon' & _ & Hhi). specialize (Hhi eq_refl).
  unfold datetime_add, _MAXORDINAL.
  replace (0 <? ordinal (shift adjusted 1800)) with true
    by (symmetry; apply Z.ltb_lt; lia).
  replace (ordinal (shift adjusted 1800) <=? 3652059) with true
    by (symmetry; apply Z.leb_le; lia).
  split; [reflexivity | exact Hon'].
Qed.


(** C7, as the code has it. [get_timestamp_ms] rounds the time read from
    the clock by setting the minute to 0 when it is below 31 and to 30
    otherwise, with seconds and microseconds zeroed: the rounded time is on
    the half-hour grid of the wall clock, at or before the time read and
    less than 31 minutes before it (less than 30 unless the minute is 30).
    The value returned is the epoch, in milliseconds, of the wall-clock time
    30 minutes after the rounded time, one hour earlier when daylight saving
    is active: a time on a 0- or 30-minute boundary with zero seconds.  It
    is a multiple of 30 minutes in milliseconds exactly when the local
    offset from UTC at that time is a multiple of 30 minutes. *)
Theorem timestamp_on_half_hour
  (now_valid : valid_time datetime_now)
  (now_inside : 1 < ordinal datetime_now < _MAXORDINAL) :
  let rounded := round_half_hour datetime_now in
  let final :=
    shift (if is_dst rounded then shift rounded (-3600) else rounded) 1800 in
  (ordinal rounded = ordinal datetime_now
   /\ hour rounded = hour datetime_now
   /\ minute rounded = (if minute datetime_now <? 31 then 0 else 30)
   /\ second rounded = 0 /\ microsecond rounded = 0)
  /\ (0 <= wall_seconds datetime_now - wall_seconds rounded < 1860
      /\ (minute datetime_now <> 30 ->
          wall_seconds datetime_now - wall_seconds rounded < 1800)
      /\ wall_seconds rounded mod 1800 = 0)
  /\ get_timestamp_ms = Ok (timestamp_ms final)
  /\ wall_seconds final
     = wall_seconds rounded + 1800 - (if is_dst rounded then 3600 else 0)
  /\ ((minute final = 0 \/ minute final = 30)
      /\ second final = 0 /\ microsecond final = 0)
  /\ timestamp_ms final = 1000 * local_epoch_seconds final
  /\ (timestamp_ms final mod 1800000 = 0
      <-> (wall_seconds final - local_epoch_seconds final) mod 1800 = 0).
Proof.
  cbv zeta.
  split; [repeat split|].
  split; [exact (round_half_hour_wall datetime_now now_valid)|].
  destruct (get_timestamp_ms_run now_valid now_inside) as [Hrun Hon].
  cbv zeta in *. split; [exact Hrun|].
  split.
  { rewrite wall_seconds_shift.
    destruct (is_dst (round_half_hour datetime_now));
      [rewrite wall_seconds_shift|]; lia. }
  destruct Hon as (Hh & Hm & Hs & Hu).
  set (final := shift _ 1800) in *.
  assert (Hms : timestamp_ms final = 1000 * local_epoch_seconds final).
  { unfold timestamp_ms. rewrite Hu. change (Z.quot 0 1000) with 0. lia. }
  clearbody final. split; [repeat split; assumption|].
  split; [exact Hms|].
  rewrite Hms. unfold wall_seconds, day_seconds. rewrite Hs. split; intros H.
  - destruct Hm as [Hm | Hm]; rewrite Hm; Z.div_mod_to_equations; lia.
  - destruct Hm as [Hm | Hm]; rewrite Hm in H; Z.div_mod_to_equations; lia.
Qed.

End Clock.


(** A run of C7 on a Central European clock in January: 10:30:59 is rounded
    to 10:00, and the value returned is that of 10:30 local time, 09:30
    UTC, which is on the half-hour grid. *)
Lemma timestamp_on_half_hour_witness :
  valid_time (at_time 2024 1 10 10 30 59)
  /\ 1 < ordinal (at_time 2024 1 10 10 30 59) < _MAXORDINAL
  /\ @get_timestamp_ms (cet_clock (at_time 2024 1 10 10 30 59))
     = Ok (@timestamp_ms (cet_clock (at_time 2024 1 10 10 30 59))
             (at_time 2024 1 10 10 30 0))
  /\ @get_timestamp_ms (cet_clock (at_time 2024 1 10 10 30 59))
     = Ok 1704879000000
  /\ 1704879000000 mod 1800000 = 0.
Proof.
  assert (Hv : valid_time (at_time 2024 1 10 10 30 59))
    by (unfold valid_time; cbn; lia).
  assert (Hr : 1 < ordinal (at_time 2024 1 10 10 30 59) < _MAXORDINAL)
    by (vm_compute; split; reflexivity).
  split; [exact Hv|]. split; [exact Hr|].
  destruct (@timestamp_on_half_hour (cet_clock (at_time 2024 1 10 10 30 59)) Hv Hr)
    as (_ & _ & Hrun & _).
  split; [exact Hrun|]. split; [rewrite Hrun|]; reflexivity.
Defined.

(** C7, as the claim states it, fails on a clock 5 hours 45 minutes ahead of
    UTC: at 23:45 the value returned is the epoch of the next local midnight,
    18:15 UTC, which is 15 minutes off the half-hour grid. *)
Lemma timestamp_off_grid :
  @get_timestamp_ms (npt_clock (at_time 2024 1 10 23 45 0)) = Ok 1704910500000
  /\ 1704910500000 mod 1800000 = 900000
  /\ ~ (forall (C : LocalClock) ts,
          valid_time datetime_now -> 1 < ordinal datetime_now < _MAXORDINAL ->
          get_timestamp_ms = Ok ts -> ts mod 1800000 = 0).
Proof.
  split; [reflexivity|]. split; [reflexivity|].
  intros H.
  specialize (H (npt_clock (at_time 2024 1 10 23 45 0)) 1704910500000).
  assert (Hv : valid_time (at_time 2024 1 10 23 45 0))
    by (unfold valid_time; cbn; lia).
  assert (Hr : 1 < ordinal (at_time 2024 1 10 23 45 0) < _MAXORDINAL)
    by (vm_compute; split; reflexivity).
  specialize (H Hv Hr eq_refl). discriminate H.
Qed.

(* ===================================================================== *)
(** * Input validation of the river level tool *)
(* ===================================================================== *)

Section Validation.
Context {F : PyFloats} {U : UnicodeData} {J : JsonLib} {W : World}
        {C : LocalClock}.

(** [_normalize_max_results] with the bounds of the tool: a refused value
    raises [ValueError], any other value passes. *)
Lemma normalize_max_results_spec (value : pyval) :
  if bad_max_results value
  then exists msg, _normalize_max_results value 1 10 None = Raise (ValueError msg)
  else exists n, _normalize_max_results value 1 10 None = Ok n
                 /\ match n with Some k => 1 <= k <= 10 | None => value = PyNone end.
Proof.
  destruct value as [| b | z | x | s | l | d]; cbn [bad_max_results _normalize_max_results];
    try (eexists; reflexivity).
  - exists None. now split.
  - destruct (Z.ltb_spec z 1), (Z.ltb_spec 10 z); cbn [orb];
      try (eexists; reflexivity).
    exists (Some z). split; [reflexivity | lia].
  - destruct (float_is_integer x); cbn [negb orb]; [|eexists; reflexivity].
    destruct (Z.ltb_spec (int_of_float x) 1), (Z.ltb_spec 10 (int_of_float x));
      cbn [orb]; try (eexists; reflexivity).
    exists (Some (int_of_float x)). split; [reflexivity | lia].
Qed.

(** C9. A query that is not a string, or is empty or blank, and a result
    count that is a [bool], not a number, a float with a fraction or outside
    1..10, make [livello_idrometrico] raise [ValueError] with the log of
    requests unchanged: nothing has been fetched. *)
Theorem invalid_input_rejected
  (fiume max_results : pyval) (log : list Request) :
  bad_query fiume = true \/ bad_max_results max_results = true ->
  exists msg,
    livello_idrometrico fiume max_results log = (Raise (ValueError msg), log).
Proof.
  intros Hbad. unfold livello_idrometrico.
  destruct fiume as [| b | z | x | query | l | d]; try (eexists; reflexivity).
  cbn [bad_query] in Hbad.
  destruct (negb (nonempty (py_strip query))); [eexists; reflexivity|].
  destruct Hbad as [Hbad | Hbad]; [discriminate|].
  pose proof (normalize_max_results_spec max_results) as Hspec.
  rewrite Hbad in Hspec. destruct Hspec as [msg Hmsg].
  exists msg. unfold mbind at 1. unfold lift. now rewrite Hmsg.
Qed.

End Validation.

(** A run of C9: a blank query and a result count of 2.5 are both refused;
    with a good query the count alone stops the call before any request. *)
Lemma invalid_input_rejected_witness :
  @bad_query centi_floats (PyStr (u "   ")) = true
  /\ @bad_max_results centi_floats (@PyFloat centi_floats 250) = true
  /\ (exists msg,
        @livello_idrometrico centi_floats latin1_unicode model_json
          (make_world secrets unreachable) (cet_clock (at_time 2024 7 10 10 15 20))
          (PyStr (u "Secchia")) (@PyFloat centi_floats 250) []
        = (Raise (ValueError msg), [])).
Proof.
  split; [reflexivity|]. split; [reflexivity|].
  apply (@invalid_input_rejected centi_floats latin1_unicode model_json
           (make_world secrets unreachable) (cet_clock (at_time 2024 7 10 10 15 20))).
  right. reflexivity.
Defined.

(** A valid call does go to the network: the first request is the fetch of
    the sensor values. *)
Example valid_input_fetches :
  @livello_idrometrico centi_floats latin1_unicode model_json
    (make_world secrets unreachable) (cet_clock (at_time 2024 7 10 10 15 20))
    (PyStr (u "Secchia")) (@PyFloat centi_floats 300) []
  = (Raise URLError,
     [{| req_url := SENSOR_VALUES_URL ++ u "?" ++ sensor_query 1720596600000;
         req_data := None;
         req_headers := [(u "User-Agent", u "mcp-fiumi-romagna")];
         req_method := u "GET" |}]).
Proof. reflexivity. Qed.

(* ===================================================================== *)
(** * Further properties: query text and tokens *)
(* ===================================================================== *)

Lemma single_spaced_cons (b : bool) (c : Z) (r : str) :
  single_spaced b (c :: r)
  = if py_isspace c then (c =? 32) && negb b && single_spaced true r
    else single_spaced false r.
Proof. reflexivity. Qed.

Lemma single_spaced_sub_runs (b : bool) (s : str) :
  single_spaced b (sub_runs py_isspace b s) = true.
Proof.
  revert b. induction s as [|c s IH]; intros b; simpl; [reflexivity|].
  destruct (py_isspace c) eqn:E.
  - destruct b; [apply IH|]. rewrite single_spaced_cons.
    change (py_isspace 32) with true. simpl. apply IH.
  - rewrite single_spaced_cons, E. apply IH.
Qed.

Lemma single_spaced_weaken (s : str) :
  single_spaced true s = true -> single_spaced false s = true.
Proof.
  destruct s as [|c s]; [reflexivity|]. rewrite !single_spaced_cons.
  destruct (py_isspace c); [|easy]. rewrite andb_false_r. discriminate.
Qed.

Lemma single_spaced_tail (b : bool) (c : Z) (s : str) :
  single_spaced b (c :: s) = true -> single_spaced false s = true.
Proof.
  rewrite single_spaced_cons. destruct (py_isspace c); [|easy].
  rewrite !andb_true_iff. intros [_ H]. now apply single_spaced_weaken.
Qed.

Lemma single_spaced_lstrip (b : bool) (s : str) :
  single_spaced b s = true -> single_spaced false (lstrip s) = true.
Proof.
  revert b. induction s as [|c s IH]; intros b H; [reflexivity|].
  cbn [lstrip]. destruct (py_isspace c) eqn:E.
  - apply (IH false). exact (single_spaced_tail _ _ _ H).
  - rewrite single_spaced_cons, E in *. exact H.
Qed.

Lemma single_spaced_rstrip (b : bool) (s : str) :
  single_spaced b s = true -> single_spaced b (rstrip s) = true.
Proof.
  revert b. induction s as [|c s IH]; intros b; [reflexivity|].
  rewrite single_spaced_cons. cbn [rstrip]. destruct (py_isspace c) eqn:E.
  - rewrite !andb_true_iff. intros [[Hc Hb] H]. apply IH in H.
    destruct (rstrip s) as [|x xs]; [reflexivity|].
    rewrite single_spaced_cons, E, Hc, Hb, H. reflexivity.
  - intros H. apply IH in H. destruct (rstrip s) as [|x xs].
    + simpl. now rewrite E.
    + now rewrite single_spaced_cons, E.
Qed.

(** In a single-spaced string two spaces never stand side by side. *)
Lemma single_spaced_no_double (b : bool) (s a r : str) :
  single_spaced b s = true -> s <> a ++ 32 :: 32 :: r.
Proof.
  revert b s. induction a as [|x a IH]; intros b s H ->.
  - destruct b; simpl in H; discriminate.
  - simpl app in H. rewrite single_spaced_cons in H.
    destruct (py_isspace x).
    + rewrite !andb_true_iff in H. destruct H as [_ H]. now apply (IH true _ H).
    + now apply (IH false _ H).
Qed.

Lemma single_spaced_chars (b : bool) (s : str) :
  single_spaced b s = true ->
  forall c, In c s -> py_isspace c = true -> c = 32.
Proof.
  revert b. induction s as [|x s IH]; intros b H c Hin Hc; [destruct Hin|].
  destruct Hin as [<- | Hin].
  - rewrite single_spaced_cons, Hc, !andb_true_iff, Z.eqb_eq in H. tauto.
  - rewrite single_spaced_cons in H. destruct (py_isspace x).
    + rewrite !andb_true_iff in H. destruct H as [_ H]. exact (IH true H c Hin Hc).
    + exact (IH false H c Hin Hc).
Qed.

Section GenericWords.
Context {F : PyFloats} {U : UnicodeData}.

(** X1. Whatever the input, the text [strip_generic_words] returns is
    trimmed; the only white space left in it is the plain space, and never
    two in a row. *)
Theorem strip_generic_words_spacing (value : pyval) :
  let s := strip_generic_words value in
  py_strip s = s
  /\ (forall c, In c s -> py_isspace c = true -> c = 32)
  /\ (forall a r, s <> a ++ 32 :: 32 :: r).
Proof.
  cbv zeta.
  assert (H : single_spaced false (strip_generic_words value) = true
              /\ py_strip (strip_generic_words value) = strip_generic_words value).
  { destruct value; try (split; [|apply py_strip_idempotent]; unfold py_strip;
      apply single_spaced_rstrip, (single_spaced_lstrip false), single_spaced_sub_runs).
    split; reflexivity. }
  destruct H as [Hs Ht]. split; [exact Ht|]. split.
  - exact (single_spaced_chars _ _ Hs).
  - intros a r. exact (single_spaced_no_double _ _ a r Hs).
Qed.

End GenericWords.

(* [" ".join(s.split(" ")) == s]. *)
Lemma split_space_nonempty (s : str) : split_space s <> [].
Proof.
  destruct s as [|c r]; simpl; [discriminate|].
  destruct (c =? 32); [discriminate|]. destruct (split_space r); discriminate.
Qed.

Lemma join_split_space (s : str) : str_join [32] (split_space s) = s.
Proof.
  induction s as [|c r IH]; [reflexivity|]. cbn [split_space].
  destruct (Z.eqb_spec c 32) as [-> | Hc].
  - pose proof (split_space_nonempty r) as Hne.
    destruct (split_space r) as [|w ws] eqn:E; [contradiction|].
    change (str_join [32] ([] :: w :: ws)) with (32 :: str_join [32] (w :: ws)).
    now rewrite IH.
  - destruct (split_space r) as [|w ws] eqn:E.
    + now destruct (split_space_nonempty r).
    + destruct ws as [|w' ws'].
      * simpl in *. now rewrite IH.
      * change (str_join [32] ((c :: w) :: w' :: ws'))
          with (c :: str_join [32] (w :: w' :: ws')).
        now rewrite IH.
Qed.

Lemma split_space_chars (s f : str) (c : Z) :
  In f (split_space s) -> In c f -> In c s /\ c <> 32.
Proof.
  revert f. induction s as [|x r IH]; intros f; cbn [split_space].
  - intros [<- | []] [].
  - destruct (Z.eqb_spec x 32) as [-> | Hx].
    + intros [<- | Hf] Hc; [destruct Hc|].
      destruct (IH f Hf Hc). split; [now right | assumption].
    + destruct (split_space r) as [|w ws] eqn:E.
      * intros [<- | []] [<- | []]. split; [now left | assumption].
      * intros [<- | Hf] Hc.
        -- destruct Hc as [<- | Hc]; [split; [now left | assumption]|].
           destruct (IH w (or_introl eq_refl) Hc). split; [now right | assumption].
        -- destruct (IH f (or_intror Hf) Hc). split; [now right | assumption].
Qed.

(** The fields of a tidy string that does not end in a space: none is
    empty, the first one apart when the string may start with a space. *)
Lemma split_space_tidy (b : bool) (s : str) :
  tidy b s = true -> rstrip s = s -> s <> [] ->
  match split_space s with
  | [] => False
  | f :: fs => (b = true -> f <> []) /\ Forall (fun w => w <> []) fs
  end.
Proof.
  revert b. induction s as [|c r IH]; intros b Ht Hr Hne; [contradiction|].
  assert (Htail : r <> [] -> rstrip r = r).
  { intros Hr'. cbn [rstrip] in Hr. destruct (rstrip r) as [|x xs] eqn:E.
    - destruct (py_isspace c); [discriminate|].
      injection Hr as <-. contradiction.
    - now injection Hr. }
  rewrite tidy_cons in Ht. cbn [split_space].
  destruct (is_az09 c) eqn:Hc.
  - assert (H32 : (c =? 32) = false).
    { destruct (Z.eqb_spec c 32) as [-> | _]; [discriminate | reflexivity]. }
    rewrite H32. destruct r as [|x r'].
    + simpl. split; [discriminate | constructor].
    + specialize (IH false Ht (Htail ltac:(discriminate)) ltac:(discriminate)).
      destruct (split_space (x :: r')) as [|w ws]; [contradiction|].
      destruct IH as [_ IH]. split; [discriminate | exact IH].
  - rewrite !andb_true_iff, Z.eqb_eq in Ht. destruct Ht as [[-> Hb] Ht].
    apply negb_true_iff in Hb. subst b. cbn [Z.eqb Pos.eqb].
    destruct r as [|x r'].
    + exfalso. cbn in Hr. discriminate.
    + specialize (IH true Ht (Htail ltac:(discriminate)) ltac:(discriminate)).
      destruct (split_space (x :: r')) as [|w ws]; [contradiction|].
      destruct IH as [Hw IH]. split; [discriminate|].
      constructor; [now apply Hw | exact IH].
Qed.

Lemma filter_all (A : Type) (p : A -> bool) (l : list A) :
  Forall (fun x => p x = true) l -> filter p l = l.
Proof.
  induction 1 as [|x l Hx _ IH]; [reflexivity|]. simpl. now rewrite Hx, IH.
Qed.

Section Tokens.
Context {F : PyFloats} {U : UnicodeData}.

(** The tokens of a normalised text are its space-separated fields, all of
    them. *)
Lemma tokenize_normalized (value : pyval) :
  tokenize (normalize_text value)
  = match normalize_text value with
    | [] => []
    | _ :: _ => split_space (normalize_text value)
    end
  /\ Forall (fun w => w <> []) (tokenize (normalize_text value)).
Proof.
  pose proof (normalize_text_tidy value) as Ht.
  pose proof (normalize_text_trimmed value) as Hs.
  pose proof (py_strip_head (normalize_text value)) as Hh. rewrite Hs in Hh.
  assert (Hr : rstrip (normalize_text value) = normalize_text value).
  { rewrite <- Hs at 2. unfold py_strip.
    rewrite <- Hs at 1. unfold py_strip. apply rstrip_idempotent. }
  destruct (normalize_text value) as [|c r] eqn:E; [split; [reflexivity | constructor]|].
  assert (Ht' : tidy true (c :: r) = true).
  { rewrite tidy_cons in *. destruct (is_az09 c); [exact Ht|].
    rewrite !andb_true_iff, Z.eqb_eq in Ht. destruct Ht as [[-> _] _]. discriminate. }
  pose proof (split_space_tidy true (c :: r) Ht' Hr ltac:(discriminate)) as Hf.
  destruct (split_space (c :: r)) as [|f fs] eqn:Es; [contradiction|].
  destruct Hf as [Hf Hfs]. specialize (Hf eq_refl).
  assert (Hall : Forall (fun w => w <> []) (f :: fs)) by now constructor.
  unfold tokenize. rewrite Es.
  rewrite filter_all.
  - split; [reflexivity | exact Hall].
  - eapply Forall_impl; [|exact Hall]. intros w Hw. now apply nonempty_true.
Qed.

(** The cleaned query is its tokens joined by single spaces. *)
Lemma cleaned_of_tokens (query : str) :
  str_join [32] (query_tokens query)
  = normalize_text (PyStr (strip_generic_words (PyStr query))).
Proof.
  unfold query_tokens.
  set (value := PyStr (strip_generic_words (PyStr query))).
  destruct (tokenize_normalized value) as [Heq _]. rewrite Heq.
  destruct (normalize_text value) eqn:E; [reflexivity|].
  rewrite <- E. apply join_split_space.
Qed.

(** X2. The tokens the matcher works with are never empty and hold only
    [a-z] and [0-9]; joined by single spaces they give back the cleaned
    query, so the cleaned query and its token list determine each other. *)
Theorem query_tokens_wellformed (query : str) :
  Forall (fun token => token <> [] /\ Forall (fun c => is_az09 c = true) token)
         (query_tokens query)
  /\ str_join [32] (query_tokens query)
     = normalize_text (PyStr (strip_generic_words (PyStr query))).
Proof.
  split; [|apply cleaned_of_tokens].
  unfold query_tokens.
  set (value := PyStr (strip_generic_words (PyStr query))).
  destruct (tokenize_normalized value) as [_ Hne].
  pose proof (tidy_chars _ _ (normalize_text_tidy value)) as Hchars.
  rewrite Forall_forall in *. intros token Hin. split; [now apply Hne|].
  apply Forall_forall. intros c Hc.
  assert (Hfield : In token (split_space (normalize_text value))).
  { unfold tokenize in Hin. now apply filter_In in Hin. }
  destruct (split_space_chars _ _ _ Hfield Hc) as [Hs H32].
  destruct (Hchars c Hs) as [H | H]; [exact H | contradiction].
Qed.


End Tokens.


(* ===================================================================== *)
(** * Further properties: the matcher, the retrieval and the orchestrator *)
(* ===================================================================== *)

Lemma slice_to_incl (A : Type) (n : Z) (l : list A) (x : A) :
  In x (slice_to n l) -> In x l.
Proof. unfold slice_to. destruct (n <? 0); apply In_firstn_In. Qed.

Lemma slice_to_length (A : Type) (n : Z) (l : list A) :
  0 <= n -> (List.length (slice_to n l) <= Z.to_nat n)%nat.
Proof.
  intros H. rewrite (slice_to_firstn A n l H), length_firstn. apply Nat.le_min_l.
Qed.

Section Shape.
Context {F : PyFloats} {U : UnicodeData}.

Lemma suggestions_incl (tokens : list str) (entries : list dict) (e : dict) :
  In e (map snd (firstn 5 (sort_desc (score_entries tokens entries)))) ->
  In e entries.
Proof.
  intros H. apply in_map_iff in H. destruct H as [[k e'] [<- H]].
  apply In_firstn_In in H.
  apply (Permutation_in _ (sort_desc_perm _ _)) in H.
  rewrite score_entries_spec in H. apply in_map_iff in H.
  destruct H as [e'' [[= _ <-] H]]. now apply filter_In in H.
Qed.

Lemma local_exclusive (entries : list dict) (query : str) :
  fst (select_stations_by_query entries query) = []
  \/ snd (select_stations_by_query entries query) = [].
Proof.
  unfold select_stations_by_query.
  destruct (negb (nonempty _)); [now left|].
  destruct (nonempty (filter _ entries)); [now right | now left].
Qed.

Lemma local_incl (entries : list dict) (query : str) (e : dict) :
  In e (fst (select_stations_by_query entries query))
  \/ In e (snd (select_stations_by_query entries query)) ->
  In e entries.
Proof.
  unfold select_stations_by_query.
  destruct (negb (nonempty _)); [cbn; tauto|].
  destruct (filter _ entries) as [|m ms] eqn:Hm; cbn [nonempty fst snd].
  - intros [[] | H]. now apply suggestions_incl in H.
  - intros [H | []]. rewrite <- Hm in H. now apply filter_In in H.
Qed.

(** X4. The matcher never returns matches and suggestions together; every
    entry it returns is one of the input entries; and no suggestion is an
    exact match. *)
Theorem select_stations_shape (entries : list dict) (query : str) :
  let result := select_stations_by_query entries query in
  (fst result = [] \/ snd result = [])
  /\ (forall e, In e (fst result) \/ In e (snd result) -> In e entries)
  /\ (forall e, In e (snd result) ->
        all_tokens_in (query_tokens query) (entry_name e) = false).
Proof.
  cbv zeta. split; [apply local_exclusive|]. split; [apply local_incl|].
  unfold select_stations_by_query. fold (query_tokens query).
  destruct (negb (nonempty (normalize_text (PyStr (strip_generic_words (PyStr query)))))).
  { intros e []. }
  destruct (filter (fun entry => all_tokens_in (query_tokens query) (entry_name entry)) entries)
    as [|m ms] eqn:Hm; cbn [nonempty fst snd]; [|intros e []].
  intros e H. apply suggestions_incl in H.
  destruct (all_tokens_in (query_tokens query) (entry_name e)) eqn:E; [|reflexivity].
  assert (Hin : In e (filter (fun entry => all_tokens_in (query_tokens query) (entry_name entry)) entries))
    by (apply filter_In; now split).
  rewrite Hm in Hin. destruct Hin.
Qed.

End Shape.

Section Requests.
Context {F : PyFloats} {U : UnicodeData} {J : JsonLib} {W : World}.

(** The request [_openai_create_response] sends for a payload. *)
Lemma openai_request (payload : pyval) (log : list Request) :
  env_set (u "OPENAI_API_KEY") = true ->
  exists request,
    snd (_openai_create_response payload log) = log ++ [request]
    /\ req_method request = u "POST"
    /\ req_url request = OPENAI_BASE_URL ++ u "/responses"
    /\ req_data request = Some (json_dumps payload)
    /\ In (u "Authorization", u "Bearer " ++ getenv_or (u "OPENAI_API_KEY") [])
          (req_headers request)
    /\ forall v,
         fst (_openai_create_response payload log) = Ok v ->
         exists body,
           urlopen request REQUEST_TIMEOUT_SEC
           = Ok {| resp_status := 200; resp_body := Ok body |}
           /\ (if nonempty body then json_loads body = Ok v else v = PyDict []).
Proof.
  intros Hkey. unfold _openai_create_response. rewrite Hkey. cbn [negb].
  eexists. unfold mbind, send.
  split; [|split; [|split; [|split; [|split]]]].
  - destruct (urlopen _ REQUEST_TIMEOUT_SEC) as [[status body] | e]; [|reflexivity].
    cbn [resp_status resp_body]. unfold lift.
    destruct body as [body | e]; [|reflexivity].
    destruct (negb (status =? 200)); [reflexivity|].
    destruct (nonempty body); reflexivity.
  - reflexivity.
  - reflexivity.
  - reflexivity.
  - cbn [req_headers]. destruct (env_set (u "OPENAI_BETA"));
      [apply in_or_app; left|]; left; reflexivity.
  - intros v. destruct (urlopen _ REQUEST_TIMEOUT_SEC) as [[status body] | e]; [|discriminate].
    cbn [resp_status resp_body]. unfold lift.
    destruct body as [body | e]; [|discriminate].
    destruct (Z.eqb_spec status 200) as [-> | Hs]; [|discriminate]. cbn [negb].
    intros Hv. exists body. split; [reflexivity|].
    destruct (nonempty body).
    + cbn in Hv. now destruct (json_loads body).
    + cbn in Hv. congruence.
Qed.

(** X5. Without an API key [_openai_create_response] raises [RuntimeError]
    and sends nothing.  With one it sends exactly one request: a POST to
    [<base>/responses] whose body is the serialised payload and whose
    headers carry [Authorization: Bearer <key>]; and it returns a value only
    for an answer of status 200, the parsed body, or the empty object for an
    empty body. *)
Theorem openai_create_response_request (payload : pyval) (log : list Request) :
  (env_set (u "OPENAI_API_KEY") = false ->
   exists msg,
     _openai_create_response payload log = (Raise (RuntimeError msg), log))
  /\ (env_set (u "OPENAI_API_KEY") = true ->
      exists request,
        snd (_openai_create_response payload log) = log ++ [request]
        /\ req_method request = u "POST"
        /\ req_url request = OPENAI_BASE_URL ++ u "/responses"
        /\ req_data request = Some (json_dumps payload)
        /\ In (u "Authorization", u "Bearer " ++ getenv_or (u "OPENAI_API_KEY") [])
              (req_headers request)
        /\ forall v,
             fst (_openai_create_response payload log) = Ok v ->
             exists body,
               urlopen request REQUEST_TIMEOUT_SEC
               = Ok {| resp_status := 200; resp_body := Ok body |}
               /\ (if nonempty body then json_loads body = Ok v
                   else v = PyDict [])).
Proof.
  split.
  - intros Hkey. unfold _openai_create_response. rewrite Hkey. now eexists.
  - apply openai_request.
Qed.

(** What a run of [_retrieve_station_names] leaves in the log: nothing, or
    one request. *)
Lemma retrieve_log (query : str) (max_results : Z) (log : list Request) :
  snd (_retrieve_station_names query max_results log) = log
  \/ exists request,
       snd (_retrieve_station_names query max_results log) = log ++ [request]
       /\ req_method request = u "POST".
Proof.
  unfold _retrieve_station_names.
  destruct _is_retrieval_enabled eqn:Hen; cbn [negb]; [|now left].
  unfold _is_retrieval_enabled in Hen. apply andb_true_iff in Hen.
  destruct Hen as [Hkey _].
  destruct (openai_request (retrieval_payload query max_results) log Hkey)
    as (request & Hlog & Hm & _).
  right. exists request. split; [|exact Hm].
  unfold mbind at 1 2 3.
  destruct (_openai_create_response (retrieval_payload query max_results) log)
    as [[response | e] log'']; cbn [snd] in Hlog; subst log''; [|reflexivity].
  unfold lift, mbind, mret.
  destruct (_extract_output_text response); [|reflexivity].
  destruct (_parse_json_array _); reflexivity.
Qed.

Lemma candidate_names_clean (items : list pyval) :
  Forall (fun name => name <> [] /\ py_strip name = name) (candidate_names items).
Proof.
  rewrite Forall_forall. intros name H. unfold candidate_names in H.
  apply in_map_iff in H. destruct H as [item [<- H]].
  apply filter_In in H. destruct H as [_ H].
  split; [now apply nonempty_true | apply py_strip_idempotent].
Qed.

(** X6. Whatever [_retrieve_station_names] returns, every name is trimmed
    and not empty, there are at most [max_results] of them when that bound
    is not negative, and at most one request has been sent; with retrieval
    not configured it returns no name and sends nothing. *)
Theorem retrieved_names_clean
  (query : str) (max_results : Z) (log log' : list Request) (names : list str) :
  _retrieve_station_names query max_results log = (Ok names, log') ->
  Forall (fun name => name <> [] /\ py_strip name = name) names
  /\ (0 <= max_results -> (List.length names <= Z.to_nat max_results)%nat)
  /\ (log' = log \/ exists request, log' = log ++ [request])
  /\ (_is_retrieval_enabled = false -> names = [] /\ log' = log).
Proof.
  intros Hrun.
  assert (Hlog : log' = log \/ exists request, log' = log ++ [request]).
  { pose proof (retrieve_log query max_results log) as H. rewrite Hrun in H.
    cbn [snd] in H. destruct H as [H | [request [H _]]]; [now left|].
    right. now exists request. }
  assert (Hoff : _is_retrieval_enabled = false -> names = [] /\ log' = log).
  { intros Hen. unfold _retrieve_station_names in Hrun. rewrite Hen in Hrun.
    cbn in Hrun. now injection Hrun as <- <-. }
  split; [|split; [|split]]; try assumption.
  - unfold _retrieve_station_names in Hrun.
    destruct (negb _is_retrieval_enabled); [injection Hrun as <- _; constructor|].
    unfold mbind at 1 2 3 in Hrun.
    destruct (_openai_create_response _ log) as [[response | e] l1]; [|discriminate].
    unfold lift, mbind, mret in Hrun.
    destruct (_extract_output_text response); [|discriminate].
    destruct (_parse_json_array _) as [items | e]; [|discriminate].
    injection Hrun as <- _.
    pose proof (candidate_names_clean items) as Hc.
    rewrite Forall_forall in *. intros name H. apply Hc.
    exact (slice_to_incl _ _ _ _ H).
  - intros Hn. unfold _retrieve_station_names in Hrun.
    destruct (negb _is_retrieval_enabled); [injection Hrun as <- _; simpl; lia|].
    unfold mbind at 1 2 3 in Hrun.
    destruct (_openai_create_response _ log) as [[response | e] l1]; [|discriminate].
    unfold lift, mbind, mret in Hrun.
    destruct (_extract_output_text response); [|discriminate].
    destruct (_parse_json_array _) as [items | e]; [|discriminate].
    injection Hrun as <- _. now apply slice_to_length.
Qed.

(** What the orchestrator returns: matches or suggestions, never both, and
    entries of the input only. *)
Lemma orchestrator_result
  (entries : list dict) (query : str) (max_results : Z) (log : list Request) :
  exists result,
    fst (select_stations_by_query_with_retrieval entries query max_results log)
    = Ok result
    /\ (fst result = [] \/ snd result = [])
    /\ (forall e, In e (fst result) \/ In e (snd result) -> In e entries).
Proof.
  pose proof (local_exclusive entries query) as Hex.
  pose proof (local_incl entries query) as Hin.
  destruct (orchestrator_cases entries query max_results log) as [[_ Hrun] | [_ Hrun]].
  - rewrite Hrun. eexists. split; [reflexivity|]. now split.
  - destruct (_retrieve_station_names query max_results log) as [[names | e] log'].
    + destruct (nonempty names && nonempty _) eqn:Hn; rewrite Hrun.
      * eexists. split; [reflexivity|]. cbn [fst snd]. split; [now right|].
        intros e [H | []]. now apply filter_In in H.
      * eexists. split; [reflexivity|]. now split.
    + rewrite Hrun. eexists. split; [reflexivity|]. now split.
Qed.

(** What the orchestrator leaves in the log. *)
Lemma orchestrator_log
  (entries : list dict) (query : str) (max_results : Z) (log : list Request) :
  snd (select_stations_by_query_with_retrieval entries query max_results log) = log
  \/ exists request,
       snd (select_stations_by_query_with_retrieval entries query max_results log)
       = log ++ [request]
       /\ req_method request = u "POST".
Proof.
  pose proof (retrieve_log query max_results log) as Hlog.
  destruct (orchestrator_cases entries query max_results log) as [[_ Hrun] | [_ Hrun]].
  - left. now rewrite Hrun.
  - destruct (_retrieve_station_names query max_results log) as [[names | e] log'];
      [destruct (nonempty names && nonempty _)|]; rewrite Hrun; exact Hlog.
Qed.

Lemma orchestrator_returns
  (entries : list dict) (query : str) (max_results : Z) (log : list Request) :
  exists result,
    fst (select_stations_by_query_with_retrieval entries query max_results log)
    = Ok result.
Proof.
  destruct (orchestrator_cases entries query max_results log) as [[_ Hrun] | [_ Hrun]].
  - rewrite Hrun. now eexists.
  - destruct (_retrieve_station_names query max_results log) as [[names | e] log'];
      [destruct (nonempty names && nonempty _)|]; rewrite Hrun; now eexists.
Qed.

(** X7. The orchestrator always returns; it never returns matches and
    suggestions together; every entry it returns is one of the input
    entries, whatever names the retrieval came up with; and it sends at
    most one request. *)
Theorem orchestrator_shape
  (entries : list dict) (query : str) (max_results : Z) (log : list Request) :
  exists result log',
    select_stations_by_query_with_retrieval entries query max_results log
    = (Ok result, log')
    /\ (fst result = [] \/ snd result = [])
    /\ (forall e, In e (fst result) \/ In e (snd result) -> In e entries)
    /\ (log' = log \/ exists request, log' = log ++ [request]).
Proof.
  destruct (orchestrator_result entries query max_results log)
    as (result & Hres & Hex & Hin).
  pose proof (orchestrator_log entries query max_results log) as Hlog.
  destruct (select_stations_by_query_with_retrieval entries query max_results log)
    as [r log'].
  cbn [fst snd] in Hres, Hlog. subst r. exists result, log'.
  split; [reflexivity|]. split; [exact Hex|]. split; [exact Hin|].
  destruct Hlog as [-> | [request [-> _]]]; [now left|].
  right. now exists request.
Qed.

End Requests.

(** A run of X6: the names of the mixed answer are trimmed and not empty,
    and one request has gone out. *)
Lemma retrieved_names_clean_witness :
  exists names log',
    @_retrieve_station_names centi_floats latin1_unicode model_json mixed_world
      (u "zzz") 3 [] = (Ok names, log')
    /\ Forall (fun name => name <> [] /\ py_strip name = name) names
    /\ (List.length names <= 3)%nat.
Proof.
  eexists _, _. split; [reflexivity|].
  destruct (@retrieved_names_clean centi_floats latin1_unicode model_json
              mixed_world (u "zzz") 3 [] _ _ eq_refl) as (H1 & H2 & _).
  split; [exact H1 | apply H2; lia].
Defined.

(* ===================================================================== *)
(** * Further properties: response text, values and counts *)
(* ===================================================================== *)

(** A loop raises only what its body raises. *)
Lemma for_each_raises (A S : Type) (P : exn -> Prop)
  (body : S -> A -> result S) (l : list A) :
  (forall acc x e, In x l -> body acc x = Raise e -> P e) ->
  forall acc e, for_each body acc l = Raise e -> P e.
Proof.
  induction l as [|x l IH]; intros Hbody acc e; simpl; [discriminate|].
  unfold rbind. destruct (body acc x) as [acc' | e'] eqn:E.
  - apply IH. intros a y e0 Hy. apply Hbody. now right.
  - intros [= <-]. exact (Hbody acc x e' (or_introl eq_refl) E).
Qed.

Section OutputText.
Context {F : PyFloats}.

Lemma extract_part_raises (chunks : list str) (part : pyval) (e : exn) :
  extract_part chunks part = Raise e -> e = AttributeError.
Proof.
  unfold extract_part, rbind, py_get.
  destruct part; try (intros [= <-]; reflexivity).
  destruct (is_str _ _); [|discriminate].
  destruct (truthy _); [|discriminate].
  unfold py_strip_method. destruct (get_or (u "text") PyNone d);
    try (intros [= <-]; reflexivity); discriminate.
Qed.

Lemma extract_item_raises (chunks : list str) (item : pyval) (e : exn) :
  extract_item chunks item = Raise e -> e = AttributeError \/ e = TypeError.
Proof.
  unfold extract_item, rbind, py_get.
  destruct item; try (intros [= <-]; now left).
  destruct (negb _); [discriminate|].
  destruct (py_iter _) as [parts | e'] eqn:Hit.
  - intros H. left.
    exact (for_each_raises _ _ (fun e => e = AttributeError) extract_part parts
             (fun acc x e0 _ => extract_part_raises acc x e0) chunks e H).
  - intros [= <-]. right. unfold py_iter in Hit.
    destruct (if truthy _ then _ else _); congruence.
Qed.

(** The parts of a well-formed message add their trimmed texts. *)
Lemma extract_text_parts (texts : list str) (chunks : list str) :
  Forall (fun text => text <> []) texts ->
  for_each extract_part chunks (map text_part texts)
  = Ok (chunks ++ map py_strip texts).
Proof.
  intros H. revert chunks. induction H as [|t texts Ht _ IH]; intros chunks; simpl.
  - now rewrite app_nil_r.
  - unfold extract_part at 1. cbn.
    apply nonempty_true in Ht. rewrite Ht. cbn.
    rewrite IH, <- app_assoc. reflexivity.
Qed.

Lemma extract_other_items (items : list pyval) (chunks : list str) :
  Forall other_item items -> for_each extract_item chunks items = Ok chunks.
Proof.
  induction 1 as [|item items [d [-> Hd]] _ IH]; [reflexivity|]. simpl.
  unfold extract_item at 1. cbn [py_get rbind]. rewrite Hd. exact IH.
Qed.

Lemma extract_item_message (texts : list str) (chunks : list str) :
  Forall (fun text => text <> []) texts ->
  extract_item chunks
    (PyDict [(u "type", PyStr (u "message"));
             (u "content", PyList (map text_part texts))])
  = Ok (chunks ++ map py_strip texts).
Proof.
  intros H. unfold extract_item, py_get, rbind.
  change (is_str (get_or (u "type") PyNone ?d) (u "message")) with true.
  cbn [negb].
  change (get_or (u "content") (PyList []) ?d) with (PyList (map text_part texts)).
  destruct texts as [|t texts]; [simpl; now rewrite app_nil_r|].
  cbn [truthy map nonempty py_iter].
  exact (extract_text_parts (t :: texts) chunks H).
Qed.

(** X8. [_extract_output_text] raises nothing but [AttributeError] and
    [TypeError]; a response that is not an object raises [AttributeError];
    one without an [output] list gives the empty text; output items of
    another type than ["message"] contribute nothing; the text returned is
    trimmed; and a message made of non-empty output texts gives their
    trimmed texts joined by line feeds, trimmed. *)
Theorem extract_output_text_behaviour :
  (forall response e,
     _extract_output_text response = Raise e ->
     e = AttributeError \/ e = TypeError)
  /\ (forall response,
        (forall d, response <> PyDict d) ->
        _extract_output_text response = Raise AttributeError)
  /\ (forall d,
        (forall items, get_or (u "output") PyNone d <> PyList items) ->
        _extract_output_text (PyDict d) = Ok [])
  /\ (forall d items,
        get_or (u "output") PyNone d = PyList items ->
        Forall other_item items ->
        _extract_output_text (PyDict d) = Ok [])
  /\ (forall response text,
        _extract_output_text response = Ok text -> py_strip text = text)
  /\ (forall texts,
        Forall (fun text => text <> []) texts ->
        _extract_output_text (message_response texts)
        = Ok (py_strip (str_join [10] (map py_strip texts)))).
Proof.
  split; [|split; [|split; [|split; [|split]]]].
  - intros response e. unfold _extract_output_text, rbind, py_get.
    destruct response; try (intros [= <-]; now left).
    destruct (get_or (u "output") PyNone d); try discriminate.
    destruct (for_each extract_item [] l) as [chunks | e'] eqn:E; [discriminate|].
    intros [= <-].
    exact (for_each_raises _ _ (fun e => e = AttributeError \/ e = TypeError)
             extract_item l (fun acc x e0 _ => extract_item_raises acc x e0) [] e' E).
  - intros response H. destruct response; try reflexivity. now destruct (H d).
  - intros d H. unfold _extract_output_text, rbind, py_get.
    destruct (get_or (u "output") PyNone d); try reflexivity. now destruct (H l).
  - intros d items Hd Hitems. unfold _extract_output_text, rbind, py_get.
    rewrite Hd, (extract_other_items items [] Hitems). reflexivity.
  - intros response text. unfold _extract_output_text, rbind, py_get.
    destruct response; try discriminate.
    destruct (get_or (u "output") PyNone d);
      try (intros [= <-]; reflexivity).
    destruct (for_each extract_item [] l); [|discriminate].
    intros [= <-]. apply py_strip_idempotent.
  - intros texts H. unfold _extract_output_text, message_response.
    cbn [py_get rbind].
    change (get_or (u "output") PyNone ?d) with
      (PyList [PyDict [(u "type", PyStr (u "message"));
                       (u "content", PyList (map text_part texts))]]).
    cbn [for_each rbind]. rewrite (extract_item_message texts [] H).
    reflexivity.
Qed.

End OutputText.

Section Formatting.
Context {F : PyFloats} {U : UnicodeData}.

Lemma format_value_raises (value : pyval) (e : exn) :
  format_value value = Raise e ->
  e = OverflowError
  /\ ((exists z, value = PyInt z /\ float_of_int z = None)
      \/ (exists b, value = PyBool b
                    /\ float_of_int (if b then 1 else 0) = None)).
Proof.
  destruct value as [| b | z | x | s | l | d]; cbn [format_value to_float rbind];
    try discriminate.
  - destruct (float_of_int (if b then 1 else 0)) eqn:E; [discriminate|].
    intros [= <-]. split; [reflexivity|]. right. now exists b.
  - destruct (float_of_int z) eqn:E; [discriminate|].
    intros [= <-]. split; [reflexivity|]. left. now exists z.
  - destruct (float_of_str s); discriminate.
Qed.

(** X9. [format_value] shows a missing value as ["dato non disponibile"],
    anything [float] accepts with two decimals and the unit, and anything
    else (a string that is no number, a list, an object) as its own text;
    the only exception it lets out is the [OverflowError] of an integer too
    large for a float. *)
Theorem format_value_cases :
  format_value PyNone = Ok (u "dato non disponibile")
  /\ (forall value x,
        value <> PyNone -> to_float value = Ok x ->
        format_value value = Ok (format_2f x ++ u " m"))
  /\ (forall s, float_of_str s = None -> format_value (PyStr s) = Ok s)
  /\ (forall l, format_value (PyList l) = Ok (py_str (PyList l)))
  /\ (forall d, format_value (PyDict d) = Ok (py_str (PyDict d)))
  /\ (forall value e,
        format_value value = Raise e ->
        e = OverflowError
        /\ ((exists z, value = PyInt z /\ float_of_int z = None)
            \/ (exists b, value = PyBool b
                          /\ float_of_int (if b then 1 else 0) = None))).
Proof.
  split; [reflexivity|]. split; [|split; [|split; [|split]]].
  - intros value x Hne Hx.
    destruct value; try contradiction; unfold format_value; now rewrite Hx.
  - intros s Hs. cbn [format_value to_float]. now rewrite Hs.
  - reflexivity.
  - reflexivity.
  - exact format_value_raises.
Qed.



(** X11. [_normalize_max_results] returns the default for [None] and for
    nothing else; any other value it accepts is an [int], or a float without
    fraction, inside the bounds, and that number is what it returns; a
    [bool], a string and any other value are refused; and what it raises is
    a [ValueError]. *)
Theorem normalize_max_results_bounds
  (value : pyval) (minimum maximum : Z) (default : option Z) :
  match _normalize_max_results value minimum maximum default with
  | Ok r =>
      (value = PyNone /\ r = default)
      \/ (exists k,
            r = Some k /\ minimum <= k <= maximum
            /\ (value = PyInt k
                \/ exists x, value = PyFloat x /\ float_is_integer x = true
                             /\ int_of_float x = k))
  | Raise e => (exists msg, e = ValueError msg) /\ bad_count minimum maximum value = true
  end
  /\ (bad_count minimum maximum value = false ->
      exists r, _normalize_max_results value minimum maximum default = Ok r).
Proof.
  destruct value as [| b | z | x | s | l | d];
    cbn [_normalize_max_results bad_count];
    try (split; [split; [now eexists | reflexivity] | discriminate]).
  - split; [now left | now eexists].
  - destruct (Z.ltb_spec z minimum), (Z.ltb_spec maximum z); cbn [orb];
      try (split; [split; [now eexists | reflexivity] | discriminate]).
    split; [|now eexists]. right. exists z. repeat split; try lia. now left.
  - destruct (float_is_integer x) eqn:Hx; cbn [negb orb];
      [|split; [split; [now eexists | reflexivity] | discriminate]].
    destruct (Z.ltb_spec (int_of_float x) minimum),
             (Z.ltb_spec maximum (int_of_float x)); cbn [orb];
      try (split; [split; [now eexists | reflexivity] | discriminate]).
    split; [|now eexists]. right. exists (int_of_float x).
    repeat split; try lia. right. now exists x.
Qed.

End Formatting.

(* ===================================================================== *)
(** * Further properties: the sensor fetch and the two tools *)
(* ===================================================================== *)

Section Fetch.
Context {F : PyFloats} {U : UnicodeData} {J : JsonLib} {W : World}
        {C : LocalClock}.

(** The run of [fetch_sensor_values] once the timestamp is known. *)
Lemma fetch_run (ts : Z) (log : list Request) :
  get_timestamp_ms = Ok ts ->
  fetch_sensor_values log
  = (match urlopen (sensor_request ts) REQUEST_TIMEOUT_SEC with
     | Raise e => Raise e
     | Ok response =>
         if negb (resp_status response =? 200)
         then Raise (RuntimeError (u "HTTP " ++ str_of_int (resp_status response)))
         else match resp_body response with
              | Raise e => Raise e
              | Ok payload =>
                  match json_loads payload with
                  | Raise e => Raise e
                  | Ok (PyList items) => Ok (ts, items)
                  | Ok _ =>
                      Raise (RuntimeError
                               (u "Unexpected response format from sensor API"))
                  end
              end
     end,
     log ++ [sensor_request ts]).
Proof.
  intros Hts. unfold fetch_sensor_values, mbind, lift, send. rewrite Hts.
  fold (sensor_request ts).
  destruct (urlopen (sensor_request ts) REQUEST_TIMEOUT_SEC) as [response | e];
    [|reflexivity].
  destruct (negb (resp_status response =? 200)); [reflexivity|].
  destruct (resp_body response) as [payload | e]; [|reflexivity].
  destruct (json_loads payload) as [data | e]; [|reflexivity].
  destruct data; reflexivity.
Qed.

Lemma fetch_log (log : list Request) :
  match fetch_sensor_values log with
  | (Ok _, log') => exists ts, log' = log ++ [sensor_request ts]
  | (Raise _, log') =>
      log' = log \/ exists ts, log' = log ++ [sensor_request ts]
  end.
Proof.
  destruct get_timestamp_ms as [ts | e] eqn:Hts.
  - rewrite (fetch_run ts log Hts).
    destruct (match urlopen _ _ with Ok _ => _ | Raise _ => _ end);
      [|right]; now exists ts.
  - unfold fetch_sensor_values, mbind, lift. rewrite Hts. now left.
Qed.


(** The stations the tools keep from the fetched items: the objects with a
    name that is not empty, in the order received. *)
Lemma keep_named_entries (items : list pyval) (kept entries : list dict) :
  for_each keep_named kept items = Ok entries ->
  forall e, In e entries ->
    In e kept \/ (In (PyDict e) items /\ truthy (get (u "nomestaz") e) = true).
Proof.
  revert kept. induction items as [|item items IH]; intros kept; simpl.
  - intros [= <-] e He. now left.
  - unfold rbind, keep_named at 1. destruct item; try discriminate.
    intros H e He. destruct (IH _ H e He) as [Hk | [Hi Ht]].
    + destruct (truthy (get (u "nomestaz") d)) eqn:Ht.
      * apply in_app_or in Hk. destruct Hk as [Hk | [<- | []]]; [now left|].
        right. split; [now left | exact Ht].
      * now left.
    + right. split; [now right | exact Ht].
Qed.

(** Where the log of a call of [livello_idrometrico] can end. *)
Lemma livello_log (fiume max_results : pyval) (log l : list Request) :
  snd (livello_idrometrico fiume max_results log) = l ->
  l = log
  \/ exists ts,
       l = log ++ [sensor_request ts]
       \/ exists request,
            l = log ++ [sensor_request ts; request]
            /\ req_method request = u "POST".
Proof.
  unfold livello_idrometrico.
  destruct fiume as [| b | z | x | query | l0 | d];
    try (intros <-; now left).
  destruct (negb (nonempty (py_strip query))); [intros <-; now left|].
  unfold mbind at 1. unfold lift at 1.
  destruct (_normalize_max_results max_results 1 10 None) as [n | e];
    [|intros <-; now left].
  pose proof (fetch_log log) as Hf. unfold mbind at 1.
  destruct (fetch_sensor_values log) as [[[ts data] | e] log1]; cbn [snd].
  2:{ intros <-. destruct Hf as [-> | [ts ->]]; [now left | right; exists ts; now left]. }
  destruct Hf as [ts' ->].
  unfold mbind at 1. unfold lift at 1.
  destruct (for_each keep_named [] data) as [entries | e];
    [|intros <-; right; exists ts'; now left].
  unfold mbind at 1.
  set (limit := Z.min _ 5).
  pose proof (orchestrator_log entries query limit (log ++ [sensor_request ts']))
    as Hlog.
  destruct (orchestrator_returns entries query limit (log ++ [sensor_request ts']))
    as [[matches suggestions] Hok].
  destruct (select_stations_by_query_with_retrieval entries query limit
              (log ++ [sensor_request ts'])) as [r log2].
  cbn [fst snd] in *. subst r.
  assert (Hl2 : l = log2 -> l = log
      \/ exists ts,
           l = log ++ [sensor_request ts]
           \/ exists request,
                l = log ++ [sensor_request ts; request]
                /\ req_method request = u "POST").
  { intros ->. right. exists ts'.
    destruct Hlog as [-> | [request [-> Hm]]]; [now left|].
    right. exists request. rewrite <- app_assoc. now split. }
  destruct (negb (nonempty matches)); [intros <-; now apply Hl2|].
  unfold mbind, lift, mret. destruct (_isoformat_ms ts); [|intros <-; now apply Hl2].
  destruct (_format_stations_output matches n); intros <-; now apply Hl2.
Qed.

(** X13. One call of [livello_idrometrico] sends at most two requests: the
    GET of the sensor values first and then, at most, one POST to the
    retrieval service.  With valid arguments a failure of the fetch is the
    failure of the call, and nothing more is sent. *)
Theorem livello_idrometrico_requests
  (fiume max_results : pyval) (log : list Request) :
  (snd (livello_idrometrico fiume max_results log) = log
   \/ exists ts,
        snd (livello_idrometrico fiume max_results log) = log ++ [sensor_request ts]
        \/ exists request,
             snd (livello_idrometrico fiume max_results log)
             = log ++ [sensor_request ts; request]
             /\ req_method request = u "POST")
  /\ (bad_query fiume = false -> bad_max_results max_results = false ->
      forall e log',
        fetch_sensor_values log = (Raise e, log') ->
        livello_idrometrico fiume max_results log = (Raise e, log')).
Proof.
  split; [exact (livello_log fiume max_results log _ eq_refl)|].
  unfold livello_idrometrico.
  destruct fiume as [| b | z | x | query | l | d]; try discriminate.
  cbn [bad_query]. intros Hq Hm e log' Hfetch. rewrite Hq.
  pose proof (normalize_max_results_spec max_results) as Hspec.
  rewrite Hm in Hspec. destruct Hspec as [n [Hn _]].
  unfold mbind at 1. unfold lift at 1. rewrite Hn.
  unfold mbind at 1. now rewrite Hfetch.
Qed.

End Fetch.

Section ListTool.
Context {F : PyFloats} {U : UnicodeData} {J : JsonLib} {W : World}
        {C : LocalClock}.

Lemma normalize_accepts
  (value : pyval) (minimum maximum : Z) (default r : option Z) :
  _normalize_max_results value minimum maximum default = Ok r ->
  r = default \/ exists k, r = Some k /\ minimum <= k <= maximum.
Proof.
  destruct value as [| b | z | x | s | l | d]; cbn [_normalize_max_results];
    try discriminate.
  - intros [= <-]. now left.
  - destruct (Z.ltb_spec z minimum), (Z.ltb_spec maximum z); cbn [orb];
      try discriminate.
    intros [= <-]. right. exists z. split; [reflexivity | lia].
  - destruct (float_is_integer x); [|discriminate].
    destruct (Z.ltb_spec (int_of_float x) minimum),
             (Z.ltb_spec maximum (int_of_float x)); cbn [orb]; try discriminate.
    intros [= <-]. right. exists (int_of_float x). split; [reflexivity | lia].
Qed.

Lemma normalize_refuses
  (value : pyval) (minimum maximum : Z) (default : option Z) :
  bad_count minimum maximum value = true ->
  exists msg,
    _normalize_max_results value minimum maximum default = Raise (ValueError msg).
Proof.
  destruct value as [| b | z | x | s | l | d];
    cbn [_normalize_max_results bad_count]; try discriminate;
    try (intros _; now eexists).
  - intros ->. now eexists.
  - destruct (float_is_integer x); cbn [negb orb]; [|intros _; now eexists].
    intros ->. now eexists.
Qed.

(** X14. A filter that is neither [None] nor a string, and a result count
    that is a [bool], not a number, a float with a fraction or outside 1..50,
    make [elenco_stazioni_idrometriche] raise [ValueError] before anything
    is fetched. *)
Theorem elenco_invalid_input
  (filtro max_results : pyval) (log : list Request) :
  bad_filter filtro = true \/ bad_count 1 50 max_results = true ->
  exists msg,
    elenco_stazioni_idrometriche filtro max_results log
    = (Raise (ValueError msg), log).
Proof.
  intros Hbad. unfold elenco_stazioni_idrometriche.
  destruct filtro as [| b | z | x | s | l | d]; try (eexists; reflexivity);
    (destruct Hbad as [Hbad | Hbad]; [discriminate|]);
    destruct (normalize_refuses max_results 1 50 (Some 50) Hbad) as [msg Hmsg];
    exists msg; unfold mbind at 1; unfold lift; now rewrite Hmsg.
Qed.

(** A filter without letter or digit, an empty one and an absent one keep
    every entry. *)
Lemma filter_stations_blank (filtro : pyval) (entries : list dict) :
  normalize_text filtro = [] -> filter_stations filtro entries = entries.
Proof.
  intros H. unfold filter_stations. rewrite H. now destruct (truthy filtro).
Qed.

Lemma filter_stations_spec (filtro : pyval) (entries : list dict) (e : dict) :
  In e (filter_stations filtro entries) ->
  In e entries
  /\ (truthy filtro = true -> normalize_text filtro <> [] ->
      str_contains (normalize_text filtro) (entry_name e) = true).
Proof.
  unfold filter_stations. destruct (truthy filtro); [|now split].
  destruct (normalize_text filtro) as [|c n] eqn:E; cbn [nonempty].
  - intros H. split; [exact H | congruence].
  - intros H. apply filter_In in H. destruct H as [H1 H2]. now split.
Qed.

(** What a successful run of [elenco_stazioni_idrometriche] is made of. *)
Lemma elenco_run (filtro max_results : pyval) (log log' : list Request) (text : str) :
  elenco_stazioni_idrometriche filtro max_results log = (Ok text, log') ->
  exists limit ts items entries,
    _normalize_max_results max_results 1 50 (Some 50) = Ok limit
    /\ fetch_sensor_values log = (Ok (ts, items), log')
    /\ for_each keep_named [] items = Ok entries
    /\ text = list_output
                match limit with
                | Some n => slice_to n (filter_stations filtro entries)
                | None => filter_stations filtro entries
                end.
Proof.
  unfold elenco_stazioni_idrometriche.
  assert (H : forall run : M str,
    run = (mbind (lift (_normalize_max_results max_results 1 50 (Some 50)))
             (fun max_results0 =>
                mbind fetch_sensor_values
                  (fun p => let '(ts, data) := p in
                     mbind (lift (for_each keep_named [] data))
                       (fun entries =>
                          mret (list_output
                                  match max_results0 with
                                  | Some n => slice_to n (filter_stations filtro entries)
                                  | None => filter_stations filtro entries
                                  end))))) ->
    run log = (Ok text, log') ->
    exists limit ts items entries,
      _normalize_max_results max_results 1 50 (Some 50) = Ok limit
      /\ fetch_sensor_values log = (Ok (ts, items), log')
      /\ for_each keep_named [] items = Ok entries
      /\ text = list_output
                  match limit with
                  | Some n => slice_to n (filter_stations filtro entries)
                  | None => filter_stations filtro entries
                  end).
  { intros run -> Hrun. unfold mbind at 1 in Hrun. unfold lift at 1 in Hrun.
    destruct (_normalize_max_results max_results 1 50 (Some 50)) as [limit | e];
      [|discriminate].
    unfold mbind at 1 in Hrun.
    destruct (fetch_sensor_values log) as [[[ts items] | e] log1]; [|discriminate].
    unfold mbind, lift, mret in Hrun.
    destruct (for_each keep_named [] items) as [entries | e] eqn:Hk; [|discriminate].
    injection Hrun as <- <-. now exists limit, ts, items, entries. }
  destruct filtro; try discriminate; exact (H _ eq_refl).
Qed.

(** X15. When [elenco_stazioni_idrometriche] returns, exactly one request
    has been sent, the GET of the sensor values; the text lists at most 50
    stations, each of them an object of the answer with a name that is not
    empty and, under a filter with a letter or digit, a normalised name that
    contains the normalised filter; and it is the fixed message when no
    station is left. *)
Theorem elenco_listing
  (filtro max_results : pyval) (log log' : list Request) (text : str) :
  elenco_stazioni_idrometriche filtro max_results log = (Ok text, log') ->
  exists ts items listed,
    fetch_sensor_values log = (Ok (ts, items), log')
    /\ log' = log ++ [sensor_request ts]
    /\ text = list_output listed
    /\ (List.length listed <= 50)%nat
    /\ (forall e, In e listed ->
          In (PyDict e) items
          /\ truthy (get (u "nomestaz") e) = true
          /\ (truthy filtro = true -> normalize_text filtro <> [] ->
              str_contains (normalize_text filtro) (entry_name e) = true))
    /\ (listed = [] ->
        text = u "Nessuna stazione disponibile con il filtro indicato.").
Proof.
  intros Hrun.
  destruct (elenco_run filtro max_results log log' text Hrun)
    as (limit & ts & items & entries & Hlimit & Hfetch & Hkeep & ->).
  exists ts, items. eexists. split; [exact Hfetch|].
  split; [|split; [reflexivity|split; [|split]]].
  - destruct get_timestamp_ms as [ts0 | e] eqn:Hts.
    + rewrite (fetch_run ts0 log Hts) in Hfetch. injection Hfetch as Hres <-.
      destruct (urlopen (sensor_request ts0) REQUEST_TIMEOUT_SEC) as [response | e];
        [|discriminate].
      destruct (negb (resp_status response =? 200)); [discriminate|].
      destruct (resp_body response) as [payload | e]; [|discriminate].
      destruct (json_loads payload) as [data | e]; [|discriminate].
      destruct data; try discriminate. now injection Hres as <- _.
    + unfold fetch_sensor_values, mbind, lift in Hfetch. rewrite Hts in Hfetch.
      discriminate.
  - destruct (normalize_accepts _ _ _ _ _ Hlimit) as [-> | [k [-> Hk]]].
    + apply (slice_to_length _ 50). lia.
    + etransitivity; [apply slice_to_length; lia|]. lia.
  - intros e He.
    assert (Hin : In e (filter_stations filtro entries)).
    { destruct limit; [exact (slice_to_incl _ _ _ _ He) | exact He]. }
    apply filter_stations_spec in Hin. destruct Hin as [Hin Hf].
    destruct (keep_named_entries items [] entries Hkeep e Hin) as [[] | [Hi Ht]].
    now repeat split.
  - now intros ->.
Qed.

(** X16. A filter that normalises to nothing (empty, or without a letter or
    digit) makes [elenco_stazioni_idrometriche] behave as without a
    filter. *)
Theorem elenco_blank_filter
  (filtro : str) (max_results : pyval) (log : list Request) :
  normalize_text (PyStr filtro) = [] ->
  elenco_stazioni_idrometriche (PyStr filtro) max_results log
  = elenco_stazioni_idrometriche PyNone max_results log.
Proof.
  intros Hblank. unfold elenco_stazioni_idrometriche.
  unfold mbind at 1 4. unfold lift at 1 3.
  destruct (_normalize_max_results max_results 1 50 (Some 50)) as [limit | e];
    [|reflexivity].
  unfold mbind at 1 3.
  destruct (fetch_sensor_values log) as [[[ts items] | e] log1]; [|reflexivity].
  unfold mbind, lift, mret.
  destruct (for_each keep_named [] items) as [entries | e]; [|reflexivity].
  rewrite (filter_stations_blank (PyStr filtro) entries Hblank).
  rewrite (filter_stations_blank PyNone entries eq_refl). reflexivity.
Qed.

End ListTool.

(** A run of X14: a number as filter, and a count of 51. *)
Lemma elenco_invalid_input_witness :
  (exists msg, run_list (PyInt 3) PyNone = (Raise (ValueError msg), []))
  /\ (exists msg, run_list PyNone (PyInt 51) = (Raise (ValueError msg), [])).
Proof.
  split;
    apply (@elenco_invalid_input centi_floats latin1_unicode model_json
             (sensor_world three_stations) (cet_clock (at_time 2024 7 10 10 15 20)));
    [left | right]; reflexivity.
Defined.

(** A run of X15: of three records the nameless one is left out, and the
    filter keeps the one station on the Reno. *)
Lemma elenco_listing_witness :
  run_list (PyStr (u "RENO")) PyNone
  = (Ok (u "- Reno a Bastia"), [sensor_request 1720596600000])
  /\ exists ts items listed,
       @fetch_sensor_values centi_floats model_json (sensor_world three_stations)
         (cet_clock (at_time 2024 7 10 10 15 20)) []
       = (Ok (ts, items), [sensor_request 1720596600000])
       /\ u "- Reno a Bastia" = @list_output centi_floats latin1_unicode listed
       /\ (List.length listed <= 50)%nat.
Proof.
  assert (Hrun : run_list (PyStr (u "RENO")) PyNone
                 = (Ok (u "- Reno a Bastia"), [sensor_request 1720596600000]))
    by (vm_compute; reflexivity).
  split; [exact Hrun|].
  destruct (@elenco_listing centi_floats latin1_unicode model_json
              (sensor_world three_stations) (cet_clock (at_time 2024 7 10 10 15 20))
              (PyStr (u "RENO")) PyNone [] [sensor_request 1720596600000]
              (u "- Reno a Bastia") Hrun)
    as (ts & items & listed & H1 & _ & H3 & H4 & _).
  exists ts, items, listed.
  split; [exact H1|]. split; [exact H3 | exact H4].
Defined.

(** A run of X16: punctuation alone filters nothing. *)
Lemma elenco_blank_filter_witness :
  @normalize_text centi_floats latin1_unicode (PyStr (u " -- ! ")) = []
  /\ run_list (PyStr (u " -- ! ")) PyNone = run_list PyNone PyNone.
Proof.
  split; [reflexivity|].
  apply (@elenco_blank_filter centi_floats latin1_unicode model_json
           (sensor_world three_stations) (cet_clock (at_time 2024 7 10 10 15 20))).
  reflexivity.
Defined.

(* ===================================================================== *)
(** * Further properties: the daylight saving flag and the tool's answer *)
(* ===================================================================== *)

Section DaylightFlag.
Context {C : LocalClock}.

(** X17. In a zone without daylight saving ([time.daylight] is 0, or the
    summer offset is the winter one to the minute) [is_dst] is false for
    every date.  In a zone with it, [is_dst] is the flag [tm_isdst] of the
    date, as long as 1 January or 1 July of the date's year is outside
    daylight saving; in a year where both are inside, [is_dst] is false for
    every date. *)
Theorem is_dst_flag (dt : datetime) :
  (time_daylight = 0 \/ Z.quot time_altzone 60 = Z.quot time_timezone 60 ->
   is_dst dt = false)
  /\ (time_daylight <> 0 ->
      Z.quot time_altzone 60 < Z.quot time_timezone 60 ->
      (_is_dst_local (datetime_of_date (year dt) 1 1) = false
       \/ _is_dst_local (datetime_of_date (year dt) 7 1) = false ->
       is_dst dt = _is_dst_local dt)
      /\ (_is_dst_local (datetime_of_date (year dt) 1 1) = true ->
          _is_dst_local (datetime_of_date (year dt) 7 1) = true ->
          is_dst dt = false)).
Proof.
  unfold is_dst, _timezone_offset_minutes. cbv zeta.
  assert (Hq : forall b : bool,
            Z.quot (if b then time_altzone else time_timezone) 60
            = if b then Z.quot time_altzone 60 else Z.quot time_timezone 60)
    by (now intros []).
  rewrite !Hq. clear Hq.
  generalize (Z.quot time_timezone 60) (Z.quot time_altzone 60). intros tz az.
  split.
  - intros [H | H].
    + rewrite H. cbn [Z.eqb negb]. rewrite !andb_false_r. cbv iota. apply Z.ltb_ge. lia.
    + apply Z.ltb_ge.
      destruct (_is_dst_local dt && negb (time_daylight =? 0)),
               (_is_dst_local (datetime_of_date (year dt) 1 1)
                && negb (time_daylight =? 0)),
               (_is_dst_local (datetime_of_date (year dt) 7 1)
                && negb (time_daylight =? 0)); cbv iota; lia.
  - intros Hd Ha. apply Z.eqb_neq in Hd. rewrite Hd. cbn [negb].
    rewrite !andb_true_r. split.
    + intros [H | H]; rewrite H; clear H; destruct (_is_dst_local dt);
        destruct (_is_dst_local (datetime_of_date (year dt) _ 1));
        cbv iota; first [apply Z.ltb_lt; lia | apply Z.ltb_ge; lia].
    + intros -> ->. destruct (_is_dst_local dt); cbv iota; apply Z.ltb_ge; lia.
Qed.

End DaylightFlag.

(** On the Central European clock [is_dst] is the summer time of the rule,
    on either side of both changes; on the clock without daylight saving it
    is false in July as well. *)
Example is_dst_central_european :
  map (@is_dst (cet_clock (at_time 2024 1 1 0 0 0)))
    [at_time 2024 3 31 1 59 59; at_time 2024 3 31 2 0 0;
     at_time 2024 10 27 2 59 59; at_time 2024 10 27 3 0 0]
  = [false; true; true; false]
  /\ @is_dst (npt_clock (at_time 2024 1 1 0 0 0)) (at_time 2024 7 10 12 0 0)
     = false.
Proof. split; reflexivity. Qed.


Section Answer.
Context {F : PyFloats} {U : UnicodeData} {J : JsonLib} {W : World}
        {C : LocalClock}.


End Answer.

